(** * EcoAI: the tiered query router of [local.py]

    A shallow embedding of the routing core of the [EcoAI] class
    ([handle_rule_based], [categorize_complexity], [local_inference],
    [cloud_inference], [answer_question], [update_stats],
    [calculate_environmental_impact]) and the properties of its
    specification, followed by its construction ([__init__],
    [load_local_model]), its report ([get_impact_report]), the three
    HTTP endpoints and the interactive loop of the main block.

    Conventions of the embedding.
    - A Python [str] is a list of Unicode code points ([N]).
    - A Python [int] is a [Z].
    - A Python [float] is an exact rational ([Q]): the rounding of binary64
      arithmetic is not modelled.
    - What the interpreter, the clock and the two inference backends
      contribute is explicit: the Unicode case table and the builtin
      [eval] outside a small integer fragment are fields of [PyRuntime];
      the clock reading and the replies the backends would give are
      fields of the per-call [Env]; the calls made to the backends are
      appended to a trace; the digits of a formatted float are a field
      of [FloatFormat].  Logging is output only and is left out. *)

From Stdlib Require Import List Bool Arith NArith ZArith QArith Lia.
From Stdlib Require Import Ascii String DecimalString.
Import ListNotations.

(* ================================================================== *)
(** ** Python strings *)

Module PyStr.

Definition char := N.
Definition str := list char.

(** An ASCII literal as a Python string. *)
Definition lit (s : string) : str :=
  map N_of_ascii (list_ascii_of_string s).

Definition str_eqb (a b : str) : bool :=
  if list_eq_dec N.eq_dec a b then true else false.

(** Truthiness of a [str]: non-empty. *)
Definition truthy (s : str) : bool :=
  match s with [] => false | _ :: _ => true end.

(** [s.startswith(p)] *)
Fixpoint startswith (p s : str) : bool :=
  match p, s with
  | [], _ => true
  | _ :: _, [] => false
  | a :: p', b :: s' => (a =? b)%N && startswith p' s'
  end.

(** [needle in s] *)
Fixpoint contains (needle s : str) : bool :=
  startswith needle s ||
  match s with
  | [] => false
  | _ :: s' => contains needle s'
  end.

(** [c in s] for a single character. *)
Definition char_in (c : char) (s : str) : bool :=
  existsb (N.eqb c) s.

(** Whitespace as [str.strip()] and [str.split()] see it
    (the code points with the Unicode White_Space property, plus the
    four ASCII separators 0x1C-0x1F). *)
Definition isspace (c : char) : bool :=
  ((9 <=? c) && (c <=? 13) || (28 <=? c) && (c <=? 32)
   || (c =? 133) || (c =? 160) || (c =? 5760)
   || (8192 <=? c) && (c <=? 8202)
   || (c =? 8232) || (c =? 8233) || (c =? 8239) || (c =? 8287)
   || (c =? 12288))%N.

Fixpoint lstrip (s : str) : str :=
  match s with
  | [] => []
  | c :: r => if isspace c then lstrip r else s
  end.

(** [s.strip()] *)
Definition strip (s : str) : str :=
  rev (lstrip (rev (lstrip s))).

(** [s.split()]: the maximal runs of non-whitespace characters.
    [cur] holds the current run, reversed. *)
Fixpoint split_from (cur : str) (s : str) : list str :=
  match s with
  | [] => match cur with [] => [] | _ => [rev cur] end
  | c :: r =>
      if isspace c
      then match cur with [] => split_from [] r | _ => rev cur :: split_from [] r end
      else split_from (c :: cur) r
  end.

Definition split (s : str) : list str := split_from [] s.

(** [s.replace(old, '')] for a non-empty [old]: the occurrences of [old]
    are removed left to right, without overlap.  [skip] counts the
    characters of the current occurrence still to be dropped. *)
Fixpoint remove_from (old : str) (skip : nat) (s : str) : str :=
  match s with
  | [] => []
  | c :: r =>
      match skip with
      | S k => remove_from old k r
      | O => if startswith old s
             then remove_from old (pred (List.length old)) r
             else c :: remove_from old 0 r
      end
  end.

Definition remove_all (old s : str) : str := remove_from old 0 s.

(** [s.split(sep)[-1]] when [sep] occurs in [s], for a separator that
    cannot overlap itself (such as "Output:"): what follows its last
    occurrence. *)
Fixpoint after_last (sep s : str) : option str :=
  match s with
  | [] => None
  | _ :: r =>
      match after_last sep r with
      | Some t => Some t
      | None => if startswith sep s then Some (skipn (List.length sep) s) else None
      end
  end.

(** Lower case of an ASCII code point. *)
Definition ascii_lower (c : char) : char :=
  if ((65 <=? c) && (c <=? 90))%N then (c + 32)%N else c.

Definition is_ascii (c : char) : bool := (c <? 128)%N.

(** Decimal rendering of integers, as [str(int)]. *)
Definition show_N (n : N) : str :=
  lit (NilZero.string_of_uint (N.to_uint n)).

Definition show_Z (z : Z) : str :=
  match z with
  | Zneg p => lit "-" ++ show_N (Npos p)
  | _ => show_N (Z.to_N z)
  end.

End PyStr.

Import PyStr.

(* ================================================================== *)
(** ** What the interpreter contributes *)

(** The parts of the Python runtime the code relies on and that are not
    written out here.
    - [unicode_lower whole i c]: the lower-case mapping of the non-ASCII
      code point [c] standing at index [i] of [whole] (the Unicode case
      table; the context serves the final-sigma rule).
    - [builtin_eval e]: [Some t] when [eval(e)] returns a value that
      formats as [t], [None] when evaluating or formatting raises.
      Evaluation is taken to end. *)
Class PyRuntime := {
  unicode_lower : str -> nat -> char -> str;
  builtin_eval : str -> option str
}.

Section Lower.
Context {RT : PyRuntime}.

Fixpoint lower_from (whole : str) (i : nat) (s : str) : str :=
  match s with
  | [] => []
  | c :: r =>
      (if is_ascii c then [ascii_lower c] else unicode_lower whole i c)
        ++ lower_from whole (S i) r
  end.

(** [s.lower()] *)
Definition lower (s : str) : str := lower_from s 0 s.

End Lower.

(* ------------------------------------------------------------------ *)
(** *** The integer fragment of [eval]

    Expressions of at most 100 characters made of decimal literals
    (without a leading zero), [+], [-], [*], parentheses and spaces are
    evaluated here, with Python's grammar ([arith], [term], [factor]);
    every other expression is left to [builtin_eval]. *)

Inductive token :=
| TNum (n : N) | TPlus | TMinus | TStar | TOpen | TClose.

Definition digit_of (c : char) : option N :=
  if ((48 <=? c) && (c <=? 57))%N then Some (c - 48)%N else None.

Definition flush (cur : option N) (ts : list token) : list token :=
  match cur with Some n => TNum n :: ts | None => ts end.

(** [cur] is the literal being read; a literal that starts with [0]
    takes no further digit. *)
Fixpoint tokenize (cur : option N) (s : str) : option (list token) :=
  match s with
  | [] => Some (flush cur [])
  | c :: r =>
      match digit_of c with
      | Some d =>
          match cur with
          | None => tokenize (Some d) r
          | Some 0%N => None
          | Some n => tokenize (Some (10 * n + d)%N) r
          end
      | None =>
          let sym t := option_map (fun ts => flush cur (t :: ts)) (tokenize None r) in
          if (c =? 32)%N then option_map (flush cur) (tokenize None r)
          else if (c =? 43)%N then sym TPlus
          else if (c =? 45)%N then sym TMinus
          else if (c =? 42)%N then sym TStar
          else if (c =? 40)%N then sym TOpen
          else if (c =? 41)%N then sym TClose
          else None
      end
  end.

Inductive nonterminal :=
| Arith | ArithRest (acc : Z) | Term | TermRest (acc : Z) | Factor.

Fixpoint parse (fuel : nat) (nt : nonterminal) (ts : list token)
  : option (Z * list token) :=
  match fuel with
  | O => None
  | S f =>
      match nt with
      | Arith =>
          match parse f Term ts with
          | Some (v, r) => parse f (ArithRest v) r
          | None => None
          end
      | ArithRest acc =>
          match ts with
          | TPlus :: r =>
              match parse f Term r with
              | Some (v, r') => parse f (ArithRest (acc + v)) r'
              | None => None
              end
          | TMinus :: r =>
              match parse f Term r with
              | Some (v, r') => parse f (ArithRest (acc - v)) r'
              | None => None
              end
          | _ => Some (acc, ts)
          end
      | Term =>
          match parse f Factor ts with
          | Some (v, r) => parse f (TermRest v) r
          | None => None
          end
      | TermRest acc =>
          match ts with
          | TStar :: r =>
              match parse f Factor r with
              | Some (v, r') => parse f (TermRest (acc * v)) r'
              | None => None
              end
          | _ => Some (acc, ts)
          end
      | Factor =>
          match ts with
          | TNum n :: r => Some (Z.of_N n, r)
          | TPlus :: r => parse f Factor r
          | TMinus :: r =>
              match parse f Factor r with
              | Some (v, r') => Some (- v, r')
              | None => None
              end
          | TOpen :: r =>
              match parse f Arith r with
              | Some (v, TClose :: r') => Some (v, r')
              | _ => None
              end
          | _ => None
          end
      end
  end%Z.

Definition int_eval (e : str) : option Z :=
  if (List.length e <=? 100)%nat then
    match tokenize None e with
    | Some ts =>
        match parse (4 * List.length ts + 4) Arith ts with
        | Some (v, []) => Some v
        | _ => None
        end
    | None => None
    end
  else None.

(** [f"{eval(e)}"], or [None] when it raises. *)
Definition eval_str {RT : PyRuntime} (e : str) : option str :=
  match int_eval e with
  | Some v => Some (show_Z v)
  | None => builtin_eval e
  end.

(* ================================================================== *)
(** ** The clock: [datetime.now()] and the two [strftime] formats *)

Record datetime := {
  year : Z; month : Z; day : Z; hour : Z; minute : Z
}.

Definition pad2 (n : Z) : str :=
  if (n <? 10)%Z then lit "0" ++ show_Z n else show_Z n.

Definition is_leap (y : Z) : bool :=
  ((y mod 4 =? 0) && (negb (y mod 100 =? 0) || (y mod 400 =? 0)))%Z.

Definition days_before_year (y : Z) : Z :=
  ((y - 1) * 365 + (y - 1) / 4 - (y - 1) / 100 + (y - 1) / 400)%Z.

Definition days_in_month (y m : Z) : Z :=
  (if m =? 2 then (if is_leap y then 29 else 28)
   else if (m =? 4) || (m =? 6) || (m =? 9) || (m =? 11) then 30
   else 31)%Z.

Fixpoint days_before (y : Z) (months : nat) : Z :=
  match months with
  | O => 0
  | S k => days_before y k + days_in_month y (Z.of_nat months)
  end%Z.

Definition days_before_month (y m : Z) : Z :=
  days_before y (Z.to_nat (m - 1)).

Definition toordinal (d : datetime) : Z :=
  (days_before_year (year d) + days_before_month (year d) (month d) + day d)%Z.

(** [d.weekday()]: Monday is 0. *)
Definition weekday (d : datetime) : Z := ((toordinal d + 6) mod 7)%Z.

Definition day_name (w : Z) : str :=
  nth (Z.to_nat w)
    [lit "Monday"; lit "Tuesday"; lit "Wednesday"; lit "Thursday";
     lit "Friday"; lit "Saturday"; lit "Sunday"] [].

Definition month_name (m : Z) : str :=
  nth (Z.to_nat (m - 1))
    [lit "January"; lit "February"; lit "March"; lit "April"; lit "May";
     lit "June"; lit "July"; lit "August"; lit "September"; lit "October";
     lit "November"; lit "December"] [].

Definition hour12 (h : Z) : Z :=
  (if h mod 12 =? 0 then 12 else h mod 12)%Z.

(** [strftime('%I:%M %p')] *)
Definition strftime_clock (d : datetime) : str :=
  pad2 (hour12 (hour d)) ++ lit ":" ++ pad2 (minute d) ++ lit " "
    ++ (if (hour d <? 12)%Z then lit "AM" else lit "PM").

(** [strftime('%A, %B %d, %Y')] *)
Definition strftime_date (d : datetime) : str :=
  day_name (weekday d) ++ lit ", " ++ month_name (month d) ++ lit " "
    ++ pad2 (day d) ++ lit ", " ++ show_Z (year d).

(* ================================================================== *)
(** ** Impact estimate and statistics *)

(** [calculate_environmental_impact] *)
Definition calculate_environmental_impact (tokens_used : Z) : Q * Q :=
  let co2_grams := inject_Z tokens_used * 0.002 in
  let water_ml := 25.0 in
  (co2_grams, water_ml).

(** [self.stats] *)
Record Stats := {
  rule_based_responses : Z;
  local_responses : Z;
  cloud_responses : Z;
  tokens_saved : Z;
  co2_saved_grams : Q;
  water_saved_ml : Q;
  total_tokens_used : Z;
  reasoning_tokens_used : Z
}.

(** The statistics [__init__] installs. *)
Definition fresh_stats : Stats :=
  {| rule_based_responses := 0; local_responses := 0; cloud_responses := 0;
     tokens_saved := 0; co2_saved_grams := 0.0; water_saved_ml := 0.0;
     total_tokens_used := 0; reasoning_tokens_used := 0 |}.

(** [update_stats], as a function of the statistics. *)
Definition update_stats (response_type : str) (tokens : Z) (s : Stats) : Stats :=
  if str_eqb response_type (lit "rule-based") then
    let (co2, water) := calculate_environmental_impact 50 in
    {| rule_based_responses := rule_based_responses s + 1;
       local_responses := local_responses s;
       cloud_responses := cloud_responses s;
       tokens_saved := tokens_saved s + 50;
       co2_saved_grams := co2_saved_grams s + co2;
       water_saved_ml := water_saved_ml s + water;
       total_tokens_used := total_tokens_used s;
       reasoning_tokens_used := reasoning_tokens_used s |}
  else if str_eqb response_type (lit "local") then
    let estimated_tokens := 100%Z in
    let (co2, water) := calculate_environmental_impact estimated_tokens in
    {| rule_based_responses := rule_based_responses s;
       local_responses := local_responses s + 1;
       cloud_responses := cloud_responses s;
       tokens_saved := tokens_saved s + estimated_tokens;
       co2_saved_grams := co2_saved_grams s + co2;
       water_saved_ml := water_saved_ml s + water;
       total_tokens_used := total_tokens_used s;
       reasoning_tokens_used := reasoning_tokens_used s |}
  else if str_eqb response_type (lit "cloud") then
    {| rule_based_responses := rule_based_responses s;
       local_responses := local_responses s;
       cloud_responses := cloud_responses s + 1;
       tokens_saved := tokens_saved s;
       co2_saved_grams := co2_saved_grams s;
       water_saved_ml := water_saved_ml s;
       total_tokens_used := total_tokens_used s + tokens;
       reasoning_tokens_used := reasoning_tokens_used s |}
  else s.

(** [self.stats['reasoning_tokens_used'] += reasoning_tokens] *)
Definition add_reasoning (reasoning_tokens : Z) (s : Stats) : Stats :=
  {| rule_based_responses := rule_based_responses s;
     local_responses := local_responses s;
     cloud_responses := cloud_responses s;
     tokens_saved := tokens_saved s;
     co2_saved_grams := co2_saved_grams s;
     water_saved_ml := water_saved_ml s;
     total_tokens_used := total_tokens_used s;
     reasoning_tokens_used := reasoning_tokens_used s + reasoning_tokens |}.

(* ================================================================== *)
(** ** The rule engine and the complexity classifier *)

(** How a block of statements ends: with a value, or with an exception. *)
Inductive outcome (A : Type) :=
| Returned (a : A)
| Raised.
Arguments Returned {A} a.
Arguments Raised {A}.

Definition greetings : list str :=
  [lit "hi"; lit "hello"; lit "hey"; lit "sup"; lit "howdy"].

Definition greeting_reply : str :=
  lit "Hello! How can I help you today! " ++ [0x1F331%N].

Definition operators : list str := [lit "+"; lit "-"; lit "*"; lit "/"].

Definition phrase_tokens : list str :=
  [lit "what is"; lit "calculate"; lit "="; lit "?"].

Definition allowed_chars : str := lit "0123456789+-*/(). ".

Section Rules.
Context {RT : PyRuntime}.

(** The remainder the arithmetic rule works on: the lower-cased prompt
    with the phrase tokens removed in turn, then stripped. *)
Definition calc_of (prompt : str) : str :=
  strip (fold_left (fun calc word => remove_all word calc) phrase_tokens (lower prompt)).

(** The body of the [try] block of [handle_rule_based];
    [Returned None] is the block ending without a [return]. *)
Definition arithmetic_body (prompt : str) : outcome (option str) :=
  if existsb (fun op => contains op prompt) operators then
    let calc := calc_of prompt in
    if truthy calc && forallb (fun c => char_in c allowed_chars) calc then
      match eval_str calc with
      | Some result => Returned (Some ([0x1F9EE%N; 32%N] ++ result))
      | None => Raised
      end
    else Returned None
  else Returned None.

(** The [try] block with its bare [except: pass], followed by
    [return None]. *)
Definition arithmetic_rule (prompt : str) : option str :=
  match arithmetic_body prompt with
  | Returned (Some r) => Some r
  | Returned None => None
  | Raised => None
  end.

Definition is_greeting (prompt_lower : str) : bool :=
  existsb (fun word => str_eqb prompt_lower word
                       || startswith (word ++ lit " ") prompt_lower) greetings.

Definition is_time_query (prompt_lower : str) : bool :=
  contains (lit "what time") prompt_lower || contains (lit "current time") prompt_lower.

Definition is_date_query (prompt_lower : str) : bool :=
  contains (lit "what date") prompt_lower || contains (lit "today") prompt_lower.

(** [handle_rule_based]; [now] is what [datetime.now()] reads. *)
Definition handle_rule_based (now : datetime) (prompt : str) : option str :=
  let prompt_lower := strip (lower prompt) in
  if is_greeting prompt_lower then Some greeting_reply
  else if is_time_query prompt_lower then Some ([0x23F0%N; 32%N] ++ strftime_clock now)
  else if is_date_query prompt_lower then Some ([0x1F4C5%N; 32%N] ++ strftime_date now)
  else arithmetic_rule prompt.

Definition very_complex_keywords : list str :=
  [lit "write code";
   lit "create a program";
   lit "explain in detail";
   lit "comprehensive analysis";
   lit "step by step guide";
   lit "detailed explanation";
   lit "compare and contrast";
   lit "prove mathematically";
   lit "write an essay";
   lit "design a system"].

(** [categorize_complexity] *)
Definition categorize_complexity (prompt : str) : str :=
  let prompt_lower := lower prompt in
  let word_count := List.length (split prompt) in
  if (40 <? word_count)%nat then lit "complex"
  else if existsb (fun keyword => contains keyword prompt_lower) very_complex_keywords
  then lit "complex"
  else lit "simple".

End Rules.

(* ================================================================== *)
(** ** The two backends and the router *)

(** The body of a chat completion, as far as [cloud_inference] reads it.
    [content] is [data['choices'][0]['message']['content']], [None] when
    the lookup (or the [strip] of what it finds) raises; an absent key of
    [usage] is an absent field, and a count that is present is a JSON
    integer. *)
Record TokenDetails := { reasoning_tokens : option Z }.
Record Usage := {
  total_tokens : option Z;
  completion_tokens_details : option TokenDetails
}.
Record Completion := { content : option str; usage : option Usage }.

(** What [requests.post] and [response.json()] come to. *)
Inductive HttpReply :=
| Timeout                      (* requests.exceptions.Timeout *)
| RequestFailed                (* any other RequestException, an error status included *)
| Undecodable                  (* the body is not JSON *)
| Json (data : Completion).

(** What the outside gives one call of [answer_question]: the clock
    reading, the text the local model would decode to ([None] when the
    tokenizer or the model raises), and the reply the cloud API would
    send. *)
Record Env := {
  now : datetime;
  local_generate : option str;
  cloud_post : HttpReply
}.

(** A call that reached a backend. *)
Inductive BackendCall :=
| LocalCall (prompt : str) (max_tokens : Z)
| CloudCall (prompt : str) (max_tokens : Z).

(** The fields of an [EcoAI] object the router reads or writes;
    [local_model] and [device] say whether the attribute is set. *)
Record EcoAI := {
  use_local : bool;
  local_model : bool;
  device : bool;
  stats : Stats
}.

(** The object together with the trace of backend calls. *)
Record World := { self : EcoAI; trace : list BackendCall }.

(** The dictionary [answer_question] returns. *)
Record Result := { answer : str; source : str; tokens : Z; co2 : Q }.

(** State passing over [World]. *)
Definition M (A : Type) : Type := World -> A * World.

Definition ret {A} (a : A) : M A := fun w => (a, w).

Definition bind {A B} (m : M A) (k : A -> M B) : M B :=
  fun w => let (a, w') := m w in k a w'.

Notation "x <- m ;; k" := (bind m (fun x => k))
  (at level 61, m at next level, right associativity).
Notation "m ;;; k" := (bind m (fun _ => k))
  (at level 61, right associativity).

Definition get_self : M EcoAI := fun w => (self w, w).

Definition modify_stats (f : Stats -> Stats) : M unit :=
  fun w =>
    (tt, {| self := {| use_local := use_local (self w);
                       local_model := local_model (self w);
                       device := device (self w);
                       stats := f (stats (self w)) |};
            trace := trace w |}).

Definition record_call (c : BackendCall) : M unit :=
  fun w => (tt, {| self := self w; trace := trace w ++ [c] |}).

(** The clean-up of the decoded text in [local_inference]. *)
Definition clean_response (response : str) : str :=
  if contains (lit "Output:") response then
    match after_last (lit "Output:") response with
    | Some t => strip t
    | None => response
    end
  else response.

(** [local_inference] *)
Definition local_inference (env : Env) (prompt : str) (max_tokens : Z)
  : M (option str) :=
  record_call (LocalCall prompt max_tokens) ;;;
  me <- get_self ;;
  if negb (use_local me) then ret None
  else if negb (local_model me) then ret None
  else if negb (device me) then ret None
  else match local_generate env with
       | Some response => ret (Some (clean_response response))
       | None => ret None
       end.

(** [cloud_inference]: the answer ([None] for Python's [None]) and the
    token count. *)
Definition cloud_inference (env : Env) (prompt : str) (max_tokens : Z)
  : M (option str * Z) :=
  record_call (CloudCall prompt max_tokens) ;;;
  match cloud_post env with
  | Timeout => ret (None, 0%Z)
  | RequestFailed => ret (None, 0%Z)
  | Undecodable => ret (None, 0%Z)
  | Json data =>
      match content data with
      | None => ret (None, 0%Z)
      | Some text =>
          let answer := strip text in
          let usage := match usage data with
                       | Some u => u
                       | None => {| total_tokens := None;
                                    completion_tokens_details := None |}
                       end in
          let tokens := match total_tokens usage with
                        | Some t => t
                        | None => max_tokens
                        end in
          let details := match completion_tokens_details usage with
                         | Some d => d
                         | None => {| reasoning_tokens := None |}
                         end in
          let reasoning := match reasoning_tokens details with
                           | Some r => r
                           | None => 0%Z
                           end in
          modify_stats (add_reasoning reasoning) ;;;
          ret (Some answer, tokens)
      end
  end.

(** Truthiness of a value that is a [str] or [None]. *)
Definition truthy_opt (r : option str) : bool :=
  match r with Some s => truthy s | None => false end.

Definition text_of (r : option str) : str :=
  match r with Some s => s | None => [] end.

Definition apology : str :=
  lit "Sorry, I couldn't generate a response. Please check server logs for details.".

Definition local_tag : str := lit "[Local AI " ++ [0x1F331%N] ++ lit "] ".
Definition cloud_tag : str := lit "[Cloud AI " ++ [0x1F310%N] ++ lit "] ".

Section Router.
Context {RT : PyRuntime}.

(** Step 4 of [answer_question] and the error return after it. *)
Definition cloud_step (env : Env) (prompt : str) : M Result :=
  r <- cloud_inference env prompt 150 ;;
  let (cloud_response, tokens) := r in
  if truthy_opt cloud_response then
    modify_stats (update_stats (lit "cloud") tokens) ;;;
    let (co2, water) := calculate_environmental_impact tokens in
    ret {| answer := cloud_tag ++ text_of cloud_response;
           source := lit "cloud"; tokens := tokens; co2 := co2 |}
  else
    ret {| answer := apology; source := lit "error"; tokens := 0; co2 := 0 |}.

(** [answer_question] *)
Definition answer_question (env : Env) (prompt : str) : M Result :=
  let rule_response := handle_rule_based (now env) prompt in
  if truthy_opt rule_response then
    modify_stats (update_stats (lit "rule-based") 0) ;;;
    ret {| answer := text_of rule_response;
           source := lit "rule-based"; tokens := 0; co2 := 0 |}
  else
    let complexity := categorize_complexity prompt in
    me <- get_self ;;
    if str_eqb complexity (lit "simple") && use_local me then
      local_response <- local_inference env prompt 100 ;;
      if truthy_opt local_response then
        modify_stats (update_stats (lit "local") 0) ;;;
        ret {| answer := local_tag ++ text_of local_response;
               source := lit "local"; tokens := 0; co2 := 0 |}
      else cloud_step env prompt
    else cloud_step env prompt.

(** A session: one [answer_question] per request, in order, on the same
    object. *)
Fixpoint serve (requests : list (Env * str)) : M (list Result) :=
  match requests with
  | [] => ret []
  | (env, prompt) :: rest =>
      r <- answer_question env prompt ;;
      rs <- serve rest ;;
      ret (r :: rs)
  end.

End Router.

(** An object as [__init__] leaves it, with an empty trace. *)
Definition fresh (use_local_ local_model_ device_ : bool) : World :=
  {| self := {| use_local := use_local_; local_model := local_model_;
                device := device_; stats := fresh_stats |};
     trace := [] |}.

(** A runtime with no case mapping beyond ASCII and whose [eval] raises
    beyond the integer fragment.  It serves to run the model on ASCII
    prompts whose arithmetic stays in that fragment, where no field of
    the runtime is consulted, or raises in Python as well (a division by
    zero). *)
Definition ascii_runtime : PyRuntime :=
  {| unicode_lower := fun _ _ c => [c]; builtin_eval := fun _ => None |}.

(* ================================================================== *)
(** ** Construction: the configuration, [load_local_model], [__init__] *)

(** The two module-level switches. *)
Record Config := { IS_SERVER_MODE : bool; ENABLE_LOCAL_IN_SERVER : bool }.

(** [len(os.sys.argv) > 1 and os.sys.argv[1] == 'server'] *)
Definition server_mode_of (argv : list str) : bool :=
  match argv with
  | _ :: a :: _ => str_eqb a (lit "server")
  | _ => false
  end.

(** The configuration of the module as shipped, started with [argv]. *)
Definition shipped_config (argv : list str) : Config :=
  {| IS_SERVER_MODE := server_mode_of argv; ENABLE_LOCAL_IN_SERVER := true |}.

Definition SHOULD_IMPORT_ML (cfg : Config) : bool :=
  negb (IS_SERVER_MODE cfg) || (IS_SERVER_MODE cfg && ENABLE_LOCAL_IN_SERVER cfg).

(** How far the [try] block of [load_local_model] gets: the statement
    that raises, or none. *)
Inductive LoadOutcome :=
| TokenizerFails       (* raises before [self.device] is assigned *)
| WeightsFail          (* [from_pretrained] of the model raises *)
| MoveFails            (* [self.local_model.to(self.device)] raises *)
| TestFails            (* the test generation raises *)
| Loaded.

(** [load_local_model]: the value returned and the object after it. *)
Definition load_local_model (cfg : Config) (o : LoadOutcome) (me : EcoAI)
  : bool * EcoAI :=
  if IS_SERVER_MODE cfg && negb (ENABLE_LOCAL_IN_SERVER cfg) then (false, me)
  else
    let with_device :=
      {| use_local := use_local me; local_model := local_model me;
         device := true; stats := stats me |} in
    let with_model :=
      {| use_local := use_local me; local_model := true;
         device := true; stats := stats me |} in
    match o with
    | TokenizerFails => (false, me)
    | WeightsFail => (false, with_device)
    | MoveFails => (false, with_model)
    | TestFails => (false, with_model)
    | Loaded => (true, with_model)
    end.

Definition set_use_local (b : bool) (me : EcoAI) : EcoAI :=
  {| use_local := b; local_model := local_model me;
     device := device me; stats := stats me |}.

(** [EcoAI(use_local, force_cloud)]; [o] is what loading the model comes
    to, should it be tried. *)
Definition __init__ (cfg : Config) (o : LoadOutcome) (use_local_ force_cloud : bool)
  : EcoAI :=
  let me := {| use_local := use_local_ && negb force_cloud;
               local_model := false; device := false; stats := fresh_stats |} in
  if use_local me && SHOULD_IMPORT_ML cfg then
    let (success, me') := load_local_model cfg o me in
    if negb success then set_use_local false me' else me'
  else if IS_SERVER_MODE cfg && negb (ENABLE_LOCAL_IN_SERVER cfg) then
    set_use_local false me
  else me.

(** The object just built, with an empty trace. *)
Definition construct (cfg : Config) (o : LoadOutcome) (use_local_ force_cloud : bool)
  : World :=
  {| self := __init__ cfg o use_local_ force_cloud; trace := [] |}.

(* ================================================================== *)
(** ** The impact report *)

(** The text of a float in fixed-point notation, [format(x, '.Nf')]:
    with floats taken as rationals, the digits Python prints are left to
    the runtime. *)
Class FloatFormat := { format_fixed : nat -> Q -> str }.

(** [format(s, '>N')]: right-aligned in a field of [width] characters,
    never truncated. *)
Definition rjust (width : nat) (s : str) : str :=
  repeat 32%N (width - List.length s) ++ s.

(** The digits of a number, last digit first, with a comma before every
    fourth digit; [n] digits of the current group are out. *)
Fixpoint commas_rev (rev_digits : str) (n : nat) : str :=
  match rev_digits with
  | [] => []
  | d :: r =>
      match n with
      | 3%nat => 44%N :: d :: commas_rev r 1
      | _ => d :: commas_rev r (S n)
      end
  end.

(** [format(z, ',')] *)
Definition with_commas (z : Z) : str :=
  let digits := rev (commas_rev (rev (show_N (Z.abs_N z))) 0) in
  match z with
  | Zneg _ => lit "-" ++ digits
  | _ => digits
  end.

(** [(count / total_queries) * 100 if total_queries > 0 else 0] *)
Definition percentage (count total : Z) : Q :=
  if (0 <? total)%Z then (inject_Z count / inject_Z total) * 100 else 0.

Definition spaces (n : nat) : str := repeat 32%N n.

Definition box_line (left right : char) : str :=
  [left] ++ repeat 0x2550%N 60 ++ [right].

Definition no_queries : str := lit "No queries processed yet.".

Section Report.
Context {FF : FloatFormat}.

(** [get_impact_report], on the statistics of the object. *)
Definition get_impact_report (s : Stats) : str :=
  let total_queries :=
    (rule_based_responses s + local_responses s + cloud_responses s)%Z in
  if (total_queries =? 0)%Z then no_queries
  else
    let local_pct := percentage (local_responses s) total_queries in
    let rule_pct := percentage (rule_based_responses s) total_queries in
    let cloud_pct := percentage (cloud_responses s) total_queries in
    let bar := 0x2551%N in
    let nl := 10%N in
    [nl]
    ++ box_line 0x2554%N 0x2557%N ++ [nl]
    ++ [bar] ++ spaces 14 ++ [0x1F331%N] ++ lit " ENVIRONMENTAL IMPACT REPORT "
       ++ [0x1F331%N] ++ spaces 13 ++ [bar; nl]
    ++ box_line 0x2560%N 0x2563%N ++ [nl]
    ++ [bar] ++ lit " Total Queries: " ++ rjust 3 (show_Z total_queries)
       ++ spaces 41 ++ [bar; nl]
    ++ [bar] ++ spaces 3 ++ [0x2022%N] ++ lit " Rule-based: "
       ++ rjust 3 (show_Z (rule_based_responses s))
       ++ lit " (" ++ rjust 5 (format_fixed 1 rule_pct) ++ lit "%)"
       ++ spaces 25 ++ [bar; nl]
    ++ [bar] ++ spaces 3 ++ [0x2022%N] ++ lit " Local AI:   "
       ++ rjust 3 (show_Z (local_responses s))
       ++ lit " (" ++ rjust 5 (format_fixed 1 local_pct) ++ lit "%)"
       ++ spaces 25 ++ [bar; nl]
    ++ [bar] ++ spaces 3 ++ [0x2022%N] ++ lit " Cloud AI:   "
       ++ rjust 3 (show_Z (cloud_responses s))
       ++ lit " (" ++ rjust 5 (format_fixed 1 cloud_pct) ++ lit "%)"
       ++ spaces 25 ++ [bar; nl]
    ++ box_line 0x2560%N 0x2563%N ++ [nl]
    ++ [bar] ++ lit " SAVINGS (Local vs Cloud):" ++ spaces 33 ++ [bar; nl]
    ++ [bar] ++ spaces 3 ++ [0x1F4A8%N] ++ lit " CO" ++ [0x2082%N] ++ lit " Saved:    "
       ++ rjust 8 (format_fixed 2 (co2_saved_grams s)) ++ lit " grams"
       ++ spaces 21 ++ [bar; nl]
    ++ [bar] ++ spaces 3 ++ [0x1F4A7%N] ++ lit " Water Saved:  "
       ++ rjust 8 (format_fixed 0 (water_saved_ml s)) ++ lit " ml"
       ++ spaces 24 ++ [bar; nl]
    ++ [bar] ++ spaces 3 ++ [0x1F3AB%N] ++ lit " Tokens Saved: "
       ++ rjust 8 (with_commas (tokens_saved s)) ++ spaces 26 ++ [bar; nl]
    ++ box_line 0x2560%N 0x2563%N ++ [nl]
    ++ [bar] ++ lit " CLOUD USAGE:" ++ spaces 47 ++ [bar; nl]
    ++ [bar] ++ lit "   Total Tokens:     "
       ++ rjust 8 (with_commas (total_tokens_used s)) ++ spaces 25 ++ [bar; nl]
    ++ [bar] ++ lit "   Reasoning Tokens: "
       ++ rjust 8 (with_commas (reasoning_tokens_used s)) ++ spaces 25 ++ [bar; nl]
    ++ box_line 0x255A%N 0x255D%N ++ [nl].

End Report.

(** A formatter that prints no digits: it serves to run [get_impact_report]
    where the digits of the floats do not matter. *)
Definition mute_format : FloatFormat := {| format_fixed := fun _ _ => [] |}.

(* ================================================================== *)
(** ** The HTTP endpoints *)

(** The value under the key ['prompt'] of a request body, as far as
    [chat] and [answer_question] tell values apart. *)
Inductive PromptValue :=
| PromptText (s : str)   (* a JSON string *)
| PromptFalsy            (* null, false, 0, an empty array or object *)
| PromptTruthy.          (* any other value that is not a string *)

(** What [request.get_json()] comes to. *)
Inductive ChatBody :=
| Unreadable                              (* it raises *)
| NotAnObject                             (* a value without [get]: null, an array, a number *)
| Object (prompt : option PromptValue).   (* an object, with or without the key *)

(** The response of [chat]: the JSON body of a 200 holds the four fields
    of the result; the text of a 500 is the message of the exception,
    which the runtime words. *)
Inductive ChatResponse :=
| Chat200 (r : Result)
| Chat400 (error : str)
| Chat500.

(** The body of [health]. *)
Record Health := {
  status : str; mode : str; model_loaded : bool; local_enabled : bool
}.

Inductive Request :=
| PostChat (o : LoadOutcome) (env : Env) (body : ChatBody)
| GetStats (o : LoadOutcome)
| GetHealth.

Inductive Response :=
| ChatResponded (r : ChatResponse)
| StatsResponded (report : str) (raw : Stats)
| HealthResponded (h : Health).

Section Endpoints.
Context {RT : PyRuntime} {FF : FloatFormat}.
Variable cfg : Config.

(** [if eco_ai_instance is None: eco_ai_instance = EcoAI(use_local=True)];
    [o] is what loading the model comes to, should the object be built. *)
Definition ensure_instance (o : LoadOutcome) (eco_ai_instance : option World) : World :=
  match eco_ai_instance with
  | Some w => w
  | None => construct cfg o true false
  end.

(** [chat]: the response and the global [eco_ai_instance] after it. *)
Definition chat (o : LoadOutcome) (env : Env) (body : ChatBody)
    (eco_ai_instance : option World) : ChatResponse * option World :=
  let w := ensure_instance o eco_ai_instance in
  match body with
  | Unreadable => (Chat500, Some w)
  | NotAnObject => (Chat500, Some w)
  | Object data =>
      match (match data with Some v => v | None => PromptText [] end) with
      | PromptText prompt =>
          if negb (truthy prompt) then (Chat400 (lit "No prompt provided"), Some w)
          else let (result, w') := answer_question env prompt w in
               (Chat200 result, Some w')
      | PromptFalsy => (Chat400 (lit "No prompt provided"), Some w)
      | PromptTruthy => (Chat500, Some w)
      end
  end.

(** The endpoint [stats]. *)
Definition stats_endpoint (o : LoadOutcome) (eco_ai_instance : option World)
  : (str * Stats) * option World :=
  let w := ensure_instance o eco_ai_instance in
  ((get_impact_report (stats (self w)), stats (self w)), Some w).

(** [health] *)
Definition health (eco_ai_instance : option World) : Health :=
  {| status := lit "ok";
     mode := if ENABLE_LOCAL_IN_SERVER cfg then lit "local+cloud" else lit "cloud-only";
     model_loaded := match eco_ai_instance with Some _ => true | None => false end;
     local_enabled := ENABLE_LOCAL_IN_SERVER cfg |}.

(** The requests of a server, handled one after the other. *)
Fixpoint run_server (requests : list Request) (eco_ai_instance : option World)
  : list Response * option World :=
  match requests with
  | [] => ([], eco_ai_instance)
  | PostChat o env body :: rest =>
      let (r, i) := chat o env body eco_ai_instance in
      let (rs, i') := run_server rest i in
      (ChatResponded r :: rs, i')
  | GetStats o :: rest =>
      let (r, i) := stats_endpoint o eco_ai_instance in
      let (rs, i') := run_server rest i in
      (StatsResponded (fst r) (snd r) :: rs, i')
  | GetHealth :: rest =>
      let (rs, i') := run_server rest eco_ai_instance in
      (HealthResponded (health eco_ai_instance) :: rs, i')
  end.

(** The server branch of the main block: the object is built first. *)
Definition server_main (o : LoadOutcome) (requests : list Request)
  : list Response * option World :=
  run_server requests (Some (construct cfg o true false)).

End Endpoints.

(* ================================================================== *)
(** ** The interactive loop *)

(** What one call of [input] comes to: a line typed (with what the
    outside would give a call of [answer_question] on it), Ctrl-C, or the
    end of the input. *)
Inductive Input :=
| Typed (line : str) (env : Env)
| Interrupt
| EndOfInput.

(** [x > 0] on a float. *)
Definition positive (x : Q) : bool := negb (Qle_bool x 0).

Section Loop.
Context {RT : PyRuntime} {FF : FloatFormat}.

(** The lines printed after an answer. *)
Definition print_result (result : Result) : list str :=
  [10%N :: answer result]
  ++ (if positive (co2 result)
      then [[0x1F4A8; 32]%N ++ format_fixed 4 (co2 result) ++ lit "g CO" ++ [0x2082%N]
            ++ lit " | " ++ show_Z (tokens result) ++ lit " tokens"]
      else [])
  ++ [[]].

(** The [while True] loop of the main block on the object [w]: what
    [print] writes, one text per call, and the object when the loop ends
    or the inputs given run out. *)
Fixpoint repl (inputs : list Input) (w : World) : list str * World :=
  match inputs with
  | [] => ([], w)
  | Interrupt :: _ => ([[10; 10]%N ++ get_impact_report (stats (self w))], w)
  | EndOfInput :: rest =>
      let (out, w') := repl rest w in
      (lit "Error: EOF when reading a line" :: out, w')
  | Typed line env :: rest =>
      let user_input := strip line in
      if str_eqb (lower user_input) (lit "quit") then
        ([10%N :: get_impact_report (stats (self w))], w)
      else if str_eqb (lower user_input) (lit "stats") then
        let (out, w') := repl rest w in
        (get_impact_report (stats (self w)) :: out, w')
      else if negb (truthy user_input) then repl rest w
      else
        let (result, w1) := answer_question env user_input w in
        let (out, w') := repl rest w1 in
        ([] :: print_result result ++ out, w')
  end.

(** The interactive branch of the main block. *)
Definition cli_main (cfg : Config) (o : LoadOutcome) (inputs : list Input)
  : list str * World :=
  repl inputs (construct cfg o true false).

End Loop.

(* ================================================================== *)
(** ** Notions the properties are stated with *)

(** An ASCII string without capitals. *)
Definition plain (k : str) : bool :=
  forallb (fun c => is_ascii c && N.eqb (ascii_lower c) c) k.

(** Forty-one one-letter words. *)
Definition forty_one_words : str :=
  List.concat (repeat (lit "a ") 41).

Definition half_past_nine : datetime :=
  {| year := 2026; month := 11; day := 4; hour := 9; minute := 30 |}.

Definition quarter_to_ten_pm : datetime :=
  {| year := 2026; month := 11; day := 4; hour := 21; minute := 45 |}.

(** The world with its statistics replaced. *)
Definition with_stats (w : World) (s : Stats) : World :=
  {| self := {| use_local := use_local (self w);
                local_model := local_model (self w);
                device := device (self w);
                stats := s |};
     trace := trace w |}.

Definition with_call (w : World) (c : BackendCall) : World :=
  {| self := self w; trace := trace w ++ [c] |}.

(** What the cloud reply holds when [cloud_inference] gets as far as its
    message content: the stripped answer, the total and the reasoning
    token counts it reports. *)
Definition cloud_answer (env : Env) : option str :=
  match cloud_post env with
  | Json d => option_map strip (content d)
  | _ => None
  end.

Definition reported_total (env : Env) : option Z :=
  match cloud_post env with
  | Json d => match usage d with Some u => total_tokens u | None => None end
  | _ => None
  end.

Definition reported_reasoning (env : Env) : option Z :=
  match cloud_post env with
  | Json d =>
      match usage d with
      | Some u => match completion_tokens_details u with
                  | Some details => reasoning_tokens details
                  | None => None
                  end
      | None => None
      end
  | _ => None
  end.

(** The text [local_inference] returns on an object [me]. *)
Definition local_reply (env : Env) (me : EcoAI) : option str :=
  if use_local me && local_model me && device me
  then option_map clean_response (local_generate env)
  else None.

Definition error_result : Result :=
  {| answer := apology; source := lit "error"; tokens := 0; co2 := 0 |}.

Definition cloud_result (a : str) (t : Z) : Result :=
  {| answer := cloud_tag ++ a; source := lit "cloud"; tokens := t;
     co2 := fst (calculate_environmental_impact t) |}.

Section RouterNotions.
Context {RT : PyRuntime}.

(** The world in which [answer_question] reaches step 4. *)
Definition before_cloud (prompt : str) (w : World) : World :=
  if str_eqb (categorize_complexity prompt) (lit "simple") && use_local (self w)
  then with_call w (LocalCall prompt 100)
  else w.

End RouterNotions.

(** The reasoning tokens a call adds to the statistics: those the cloud
    reply reports, when [cloud_inference] gets as far as its message
    content. *)
Definition accrued_reasoning (env : Env) : Z :=
  match cloud_answer env, reported_reasoning env with
  | Some _, Some r => r
  | _, _ => 0%Z
  end.

(** The number of queries [get_impact_report] counts. *)
Definition total_queries (s : Stats) : Z :=
  (rule_based_responses s + local_responses s + cloud_responses s)%Z.

Definition answered (r : Result) : bool :=
  negb (str_eqb (source r) (lit "error")).

Definition count_answered (results : list Result) : Z :=
  Z.of_nat (List.length (filter answered results)).

(** The token count a cloud answer is billed with. *)
Definition billed_tokens (env : Env) : Z :=
  match reported_total env with Some t => t | None => 150%Z end.


(** What one call does to the statistics, by the source of its result. *)
Inductive call_effect (env : Env) (s : Stats) : Result -> Stats -> Prop :=
| effect_rule (r : Result) :
    source r = lit "rule-based" ->
    call_effect env s r (update_stats (lit "rule-based") 0 s)
| effect_local (r : Result) :
    source r = lit "local" ->
    call_effect env s r (update_stats (lit "local") 0 s)
| effect_cloud (r : Result) :
    source r = lit "cloud" ->
    call_effect env s r
      (update_stats (lit "cloud") (billed_tokens env)
         (add_reasoning (accrued_reasoning env) s))
| effect_error (r : Result) :
    source r = lit "error" ->
    call_effect env s r (add_reasoning (accrued_reasoning env) s).




(** No backend answers. *)
Definition quiet_env : Env :=
  {| now := half_past_nine; local_generate := None; cloud_post := Timeout |}.

(** The local model answers "ok". *)
Definition local_env : Env :=
  {| now := half_past_nine;
     local_generate := Some (lit "Instruct: what is python Output: ok");
     cloud_post := Timeout |}.

(** The cloud answers and reports 80 tokens. *)
Definition eighty_env : Env :=
  {| now := half_past_nine;
     local_generate := None;
     cloud_post :=
       Json {| content := Some (lit "Layers, queues and a cache.");
               usage := Some {| total_tokens := Some 80%Z;
                                completion_tokens_details := None |} |} |}.

(** The cloud spends 5 reasoning tokens and sends an empty message. *)
Definition silent_env : Env :=
  {| now := half_past_nine;
     local_generate := None;
     cloud_post :=
       Json {| content := Some (lit "");
               usage := Some {| total_tokens := None;
                                completion_tokens_details :=
                                  Some {| reasoning_tokens := Some 5%Z |} |} |} |}.

(** The cloud answers and reports no usage at all. *)
Definition unmetered_env : Env :=
  {| now := half_past_nine;
     local_generate := None;
     cloud_post := Json {| content := Some (lit " A snake. "); usage := None |} |}.

(** The cloud sends blanks and reports no usage at all. *)
Definition blank_env : Env :=
  {| now := half_past_nine;
     local_generate := None;
     cloud_post := Json {| content := Some (lit "   "); usage := None |} |}.

(** Usage is reported, but the body has no message content. *)
Definition headless_env : Env :=
  {| now := half_past_nine;
     local_generate := None;
     cloud_post :=
       Json {| content := None;
               usage := Some {| total_tokens := Some 40%Z;
                                completion_tokens_details :=
                                  Some {| reasoning_tokens := Some 7%Z |} |} |} |}.

(** The module started as [python local.py server]. *)
Definition server_config : Config :=
  shipped_config [lit "local.py"; lit "server"].

(** An [eval] that would give itself away on any text that is not
    arithmetic. *)
Definition telltale_eval (e : str) : option str :=
  if forallb (fun c => char_in c allowed_chars) e then None else Some (lit "reached").

Definition sample_requests : list Request :=
  [GetHealth;
   PostChat Loaded quiet_env (Object (Some (PromptText (lit "hi"))));
   PostChat Loaded quiet_env (Object None);
   PostChat Loaded quiet_env NotAnObject;
   GetStats Loaded;
   PostChat Loaded eighty_env (Object (Some (PromptText (lit "design a system for X"))))].

Definition sample_inputs : list Input :=
  [Typed (lit "  hi ") quiet_env;
   Typed (lit "") quiet_env;
   Typed (lit "STATS") quiet_env;
   EndOfInput;
   Typed (lit "design a system for X") eighty_env;
   Typed (lit " Quit ") quiet_env;
   Typed (lit "what is python") local_env].

Definition sample_session : list (Env * str) :=
  [(quiet_env, lit "hi");
   (local_env, lit "what is python");
   (eighty_env, lit "design a system for X");
   (silent_env, lit "what is python")].

(** The model loaded and passed its test. *)
Definition loaded (o : LoadOutcome) : bool :=
  match o with Loaded => true | _ => false end.

(** A call to the cloud backend. *)
Definition is_cloud_call (c : BackendCall) : bool :=
  match c with CloudCall _ _ => true | LocalCall _ _ => false end.

(** The tokens of the results of a session, added up. *)
Definition sum_tokens (results : list Result) : Z :=
  fold_right (fun r acc => (tokens r + acc)%Z) 0%Z results.

(** The reasoning tokens a request adds, given its result: those the
    cloud reply reported when the cloud was reached, none when the rules
    or the local model answered. *)
Definition reasoning_spent (env : Env) (r : Result) : Z :=
  if str_eqb (source r) (lit "rule-based") || str_eqb (source r) (lit "local")
  then 0%Z else accrued_reasoning env.

Fixpoint sum_reasoning (requests : list (Env * str)) (results : list Result) : Z :=
  match requests, results with
  | (env, _) :: qs, r :: rs => (reasoning_spent env r + sum_reasoning qs rs)%Z
  | _, _ => 0%Z
  end.


(** The prompt a request hands to [answer_question], if any. *)
Definition accepted_prompt (r : Request) : option (Env * str) :=
  match r with
  | PostChat _ env (Object (Some (PromptText s))) =>
      if truthy s then Some (env, s) else None
  | _ => None
  end.

Fixpoint accepted (requests : list Request) : list (Env * str) :=
  match requests with
  | [] => []
  | r :: rest =>
      match accepted_prompt r with
      | Some q => q :: accepted rest
      | None => accepted rest
      end
  end.

(** The results carried by the 200 responses, in order. *)
Fixpoint chat_results (responses : list Response) : list Result :=
  match responses with
  | [] => []
  | ChatResponded (Chat200 r) :: rest => r :: chat_results rest
  | _ :: rest => chat_results rest
  end.

Section RuntimeNotions.
Context {RT : PyRuntime}.

(** The calls one request makes. *)
Definition calls_of (env : Env) (prompt : str) (w : World) : list BackendCall :=
  skipn (List.length (trace w)) (trace (snd (answer_question env prompt w))).

(** A line that is the command [word], whatever its case and the blanks
    around it. *)
Definition is_command (word : string) (line : str) : bool :=
  str_eqb (lower (strip line)) (lit word).

(** An input that ends the loop. *)
Definition stops (i : Input) : bool :=
  match i with
  | Typed line _ => is_command "quit" line
  | Interrupt => true
  | EndOfInput => false
  end.

(** The inputs before the first one that ends the loop. *)
Fixpoint before_stop (inputs : list Input) : list Input :=
  match inputs with
  | [] => []
  | i :: rest => if stops i then [] else i :: before_stop rest
  end.

(** The question an input asks, if any: a typed line that, stripped, is
    neither empty nor the command stats. *)
Definition question (i : Input) : option (Env * str) :=
  match i with
  | Typed line env =>
      if is_command "stats" line || negb (truthy (strip line)) then None
      else Some (env, strip line)
  | _ => None
  end.

Fixpoint questions (inputs : list Input) : list (Env * str) :=
  match inputs with
  | [] => []
  | i :: rest =>
      match question i with
      | Some q => q :: questions rest
      | None => questions rest
      end
  end.

(** The questions the loop hands to [answer_question]. *)
Definition asked (inputs : list Input) : list (Env * str) :=
  questions (before_stop inputs).

End RuntimeNotions.

(* ================================================================== *)
(** * Properties *)

(** ** Strings *)

Lemma str_eqb_eq (a b : str) : str_eqb a b = true <-> a = b.
Proof.
  unfold str_eqb. destruct (list_eq_dec N.eq_dec a b); split; intros; congruence.
Qed.

Lemma str_eqb_refl (a : str) : str_eqb a a = true.
Proof. now apply str_eqb_eq. Qed.

Lemma startswith_iff (p s : str) :
  startswith p s = true <-> exists post, s = p ++ post.
Proof.
  revert s. induction p as [|a p IH]; intros s; simpl.
  - split; [intros _; now exists s | reflexivity].
  - destruct s as [|b s].
    + split; [discriminate | intros [post H]; discriminate].
    + rewrite andb_true_iff, N.eqb_eq, IH. split.
      * intros [-> [post ->]]. now exists post.
      * intros [post H]. injection H as -> ->. split; [reflexivity | now exists post].
Qed.

Lemma contains_iff (needle s : str) :
  contains needle s = true <-> exists pre post, s = pre ++ needle ++ post.
Proof.
  induction s as [|c s IH].
  - simpl. rewrite orb_false_r, startswith_iff. split.
    + intros [post H]. now exists [], post.
    + intros [pre [post H]]. destruct pre as [|x pre]; [now exists post | discriminate].
  - cbn [contains]. rewrite orb_true_iff, startswith_iff, IH. split.
    + intros [[post H] | [pre [post H]]].
      * now exists [], post.
      * exists (c :: pre), post. now rewrite H.
    + intros [pre [post H]]. destruct pre as [|x pre].
      * left. now exists post.
      * right. injection H as _ H. now exists pre, post.
Qed.

Section LowerFacts.
Context {RT : PyRuntime}.

Lemma lower_from_app (whole : str) (a b : str) (i : nat) :
  lower_from whole i (a ++ b)
  = lower_from whole i a ++ lower_from whole (i + List.length a) b.
Proof.
  revert i. induction a as [|c a IH]; intros i; simpl.
  - now rewrite Nat.add_0_r.
  - rewrite IH, <- app_assoc. now rewrite Nat.add_succ_r.
Qed.

Lemma lower_from_plain (whole : str) (k : str) (i : nat) :
  plain k = true -> lower_from whole i k = k.
Proof.
  revert i. induction k as [|c k IH]; intros i H; simpl in *.
  - reflexivity.
  - apply andb_true_iff in H as [Hc Hk]. apply andb_true_iff in Hc as [Ha Hl].
    rewrite Ha. apply N.eqb_eq in Hl. rewrite Hl. simpl. now rewrite IH.
Qed.

(** Lower-casing keeps every occurrence of an ASCII phrase without
    capitals. *)
Lemma contains_lower (k s : str) :
  plain k = true -> contains k s = true -> contains k (lower s) = true.
Proof.
  intros Hk H. apply contains_iff in H as [pre [post H]].
  unfold lower. generalize s at 1 as whole. intros whole. subst s.
  apply contains_iff.
  rewrite !lower_from_app, (lower_from_plain _ _ _ Hk).
  eexists _, _. reflexivity.
Qed.

End LowerFacts.

(** ** The impact estimate (C6) *)


(** ** The statistics update (C5) *)

(** C5.  [update_stats] with kind rule-based adds 1 to the rule counter,
    50 to the tokens saved and the estimate for 50 tokens to the CO2 and
    water saved; with kind local it adds 1 to the local counter, 100 to
    the tokens saved and the estimate for 100 tokens to the savings; with
    kind cloud and token count [t] it adds 1 to the cloud counter and [t]
    to the total tokens used, and credits no saving.  Every other field
    keeps its value. *)
Theorem C5_update_stats_by_kind :
  forall (s : Stats) (t : Z),
    update_stats (lit "rule-based") t s =
      {| rule_based_responses := rule_based_responses s + 1;
         local_responses := local_responses s;
         cloud_responses := cloud_responses s;
         tokens_saved := tokens_saved s + 50;
         co2_saved_grams := co2_saved_grams s + fst (calculate_environmental_impact 50);
         water_saved_ml := water_saved_ml s + snd (calculate_environmental_impact 50);
         total_tokens_used := total_tokens_used s;
         reasoning_tokens_used := reasoning_tokens_used s |}
    /\ update_stats (lit "local") t s =
      {| rule_based_responses := rule_based_responses s;
         local_responses := local_responses s + 1;
         cloud_responses := cloud_responses s;
         tokens_saved := tokens_saved s + 100;
         co2_saved_grams := co2_saved_grams s + fst (calculate_environmental_impact 100);
         water_saved_ml := water_saved_ml s + snd (calculate_environmental_impact 100);
         total_tokens_used := total_tokens_used s;
         reasoning_tokens_used := reasoning_tokens_used s |}
    /\ update_stats (lit "cloud") t s =
      {| rule_based_responses := rule_based_responses s;
         local_responses := local_responses s;
         cloud_responses := cloud_responses s + 1;
         tokens_saved := tokens_saved s;
         co2_saved_grams := co2_saved_grams s;
         water_saved_ml := water_saved_ml s;
         total_tokens_used := total_tokens_used s + t;
         reasoning_tokens_used := reasoning_tokens_used s |}.
Proof.
  intros s t. repeat split; reflexivity.
Qed.

(** ** The complexity classifier (C3) *)

Section ClassifierFacts.
Context {RT : PyRuntime}.

Lemma complex_is_not_simple : lit "complex" <> lit "simple".
Proof. discriminate. Qed.

Lemma categorize_complexity_cases (prompt : str) :
  categorize_complexity prompt =
    if (40 <? List.length (split prompt))%nat
       || existsb (fun keyword => contains keyword (lower prompt)) very_complex_keywords
    then lit "complex" else lit "simple".
Proof.
  unfold categorize_complexity.
  destruct (40 <? List.length (split prompt))%nat; reflexivity.
Qed.

(** C3.  [categorize_complexity] answers "complex" exactly when the
    prompt splits into more than 40 words or its lower-cased text
    contains one of the ten listed phrases, and "simple" otherwise.  In
    particular more than 40 words always give "complex", and so does any
    prompt that contains "design a system", however short. *)
Theorem C3_classifier :
  forall prompt : str,
    (categorize_complexity prompt = lit "complex" <->
       (40 < List.length (split prompt))%nat
       \/ exists keyword, In keyword very_complex_keywords
                          /\ contains keyword (lower prompt) = true)
    /\ (categorize_complexity prompt = lit "simple" <->
          ~ ((40 < List.length (split prompt))%nat
             \/ exists keyword, In keyword very_complex_keywords
                                /\ contains keyword (lower prompt) = true))
    /\ List.length very_complex_keywords = 10%nat
    /\ ((40 < List.length (split prompt))%nat ->
        categorize_complexity prompt = lit "complex")
    /\ (contains (lit "design a system") prompt = true ->
        categorize_complexity prompt = lit "complex").
Proof.
  intros prompt.
  assert (E : (40 <? List.length (split prompt))%nat
              || existsb (fun keyword => contains keyword (lower prompt))
                   very_complex_keywords = true
              <-> (40 < List.length (split prompt))%nat
                  \/ exists keyword, In keyword very_complex_keywords
                                     /\ contains keyword (lower prompt) = true).
  { now rewrite orb_true_iff, Nat.ltb_lt, existsb_exists. }
  rewrite categorize_complexity_cases.
  destruct ((40 <? List.length (split prompt))%nat
            || existsb (fun keyword => contains keyword (lower prompt))
                 very_complex_keywords) eqn:D.
  - assert (C : (40 < List.length (split prompt))%nat
                \/ exists keyword, In keyword very_complex_keywords
                                   /\ contains keyword (lower prompt) = true)
      by now apply E.
    repeat split; auto.
    + intros H. now apply complex_is_not_simple in H.
    + intros H. contradiction.
  - assert (C : ~ ((40 < List.length (split prompt))%nat
                   \/ exists keyword, In keyword very_complex_keywords
                                      /\ contains keyword (lower prompt) = true)).
    { intros H. apply E in H. discriminate. }
    split; [|split; [|split; [|split]]].
    + split; [intros H; symmetry in H; now apply complex_is_not_simple in H
             | intros H; contradiction].
    + split; auto.
    + reflexivity.
    + intros H. exfalso. apply C. now left.
    + intros H. exfalso. apply C. right.
      exists (lit "design a system"). split.
      * unfold very_complex_keywords. simpl. tauto.
      * now apply contains_lower.
Qed.

End ClassifierFacts.

Example classify_long_prompt `{RT : PyRuntime} :
  categorize_complexity forty_one_words = lit "complex".
Proof. reflexivity. Qed.

Example classify_design_prompt `{RT : PyRuntime} :
  categorize_complexity (lit "Design a system for X") = lit "complex".
Proof. reflexivity. Qed.

Example classify_short_prompt `{RT : PyRuntime} :
  categorize_complexity (lit "what is python") = lit "simple".
Proof. reflexivity. Qed.

(** ** The rule engine (C7, C8) *)

Lemma allowed_chars_spec (c : char) :
  char_in c allowed_chars = true <->
  (48 <= c <= 57)%N \/ In c [43; 45; 42; 47; 40; 41; 46; 32]%N.
Proof.
  unfold char_in. rewrite existsb_exists. split.
  - intros [x [Hin Heq]]. apply N.eqb_eq in Heq. subst x.
    unfold allowed_chars in Hin. cbn in Hin.
    repeat (destruct Hin as [Hin | Hin];
            [subst c; first [left; lia | right; cbn; tauto] | ]).
    contradiction.
  - intros [Hd | Hs].
    + exists c. split; [|apply N.eqb_refl].
      assert (D : (c = 48 \/ c = 49 \/ c = 50 \/ c = 51 \/ c = 52 \/ c = 53
                   \/ c = 54 \/ c = 55 \/ c = 56 \/ c = 57)%N) by lia.
      unfold allowed_chars; cbn.
      repeat (destruct D as [D | D]; [subst c; tauto|]). subst c; tauto.
    + exists c. split; [|apply N.eqb_refl].
      unfold allowed_chars; cbn. cbn in Hs.
      repeat (destruct Hs as [Hs | Hs]; [subst c; tauto|]). contradiction.
Qed.

Section RuleFacts.
Context {RT : PyRuntime}.

Lemma arithmetic_rule_truthy (prompt r : str) :
  arithmetic_rule prompt = Some r -> truthy r = true.
Proof.
  unfold arithmetic_rule, arithmetic_body.
  destruct (existsb _ operators); [|discriminate].
  destruct (truthy (calc_of prompt) && _); [|discriminate].
  destruct (eval_str (calc_of prompt)); [|discriminate].
  intros H. injection H as <-. reflexivity.
Qed.

(** Every answer of the rule engine is a non-empty text, so the test
    [if rule_response:] of the router accepts it. *)
Lemma handle_rule_based_truthy (t : datetime) (prompt r : str) :
  handle_rule_based t prompt = Some r -> truthy r = true.
Proof.
  unfold handle_rule_based.
  destruct (is_greeting _); [intros H; injection H as <-; reflexivity|].
  destruct (is_time_query _); [intros H; injection H as <-; reflexivity|].
  destruct (is_date_query _); [intros H; injection H as <-; reflexivity|].
  apply arithmetic_rule_truthy.
Qed.

Lemma arithmetic_rule_disallowed (prompt : str) (c : char) :
  In c (calc_of prompt) -> char_in c allowed_chars = false ->
  arithmetic_rule prompt = None.
Proof.
  intros Hin Hc. unfold arithmetic_rule, arithmetic_body.
  destruct (existsb _ operators); [|reflexivity].
  assert (F : forallb (fun c => char_in c allowed_chars) (calc_of prompt) = false).
  { destruct (forallb _ (calc_of prompt)) eqn:E; [|reflexivity].
    rewrite forallb_forall in E. specialize (E c Hin). congruence. }
  rewrite F, andb_false_r. reflexivity.
Qed.

Lemma arithmetic_rule_raised (prompt : str) :
  arithmetic_body prompt = Raised -> arithmetic_rule prompt = None.
Proof. unfold arithmetic_rule. now intros ->. Qed.

(** The [try] body raises exactly when it reaches [eval] and [eval]
    raises. *)
Lemma arithmetic_body_raised_iff (prompt : str) :
  arithmetic_body prompt = Raised <->
  existsb (fun op => contains op prompt) operators = true
  /\ truthy (calc_of prompt) = true
  /\ forallb (fun c => char_in c allowed_chars) (calc_of prompt) = true
  /\ eval_str (calc_of prompt) = None.
Proof.
  unfold arithmetic_body.
  destruct (existsb _ operators); [|split; [discriminate | intros [H _]; discriminate]].
  destruct (truthy (calc_of prompt)); cbn [andb];
    [|split; [discriminate | intros [_ [H _]]; discriminate]].
  destruct (forallb _ (calc_of prompt));
    [|split; [discriminate | intros [_ [_ [H _]]]; discriminate]].
  destruct (eval_str (calc_of prompt));
    [split; [discriminate | intros [_ [_ [_ H]]]; discriminate] | tauto].
Qed.

Lemma handle_rule_based_raised (t : datetime) (prompt : str) :
  arithmetic_body prompt = Raised ->
  is_greeting (strip (lower prompt)) = false ->
  is_time_query (strip (lower prompt)) = false ->
  is_date_query (strip (lower prompt)) = false ->
  handle_rule_based t prompt = None.
Proof.
  intros H G T D. unfold handle_rule_based. rewrite G, T, D.
  now apply arithmetic_rule_raised.
Qed.

(** C7.  On the prompt "what is 2+2" the arithmetic rule answers with the
    icon followed by the number 4, and so does [handle_rule_based].  The
    characters the rule accepts are the digits, the four operators, the
    parentheses, the decimal point and the space; a prompt whose
    remainder (the lower-cased prompt without the phrase tokens, stripped)
    holds any other character gets no answer from the rule.  When the
    evaluation raises, the rule gives no answer either, and
    [handle_rule_based] returns [None] unless an earlier rule answered:
    nothing propagates to the caller. *)
Theorem C7_arithmetic_rule :
  forall t : datetime,
    arithmetic_rule (lit "what is 2+2") = Some ([0x1F9EE; 32]%N ++ show_Z 4)
    /\ handle_rule_based t (lit "what is 2+2") = Some ([0x1F9EE; 32]%N ++ lit "4")
    /\ (forall c : char,
          char_in c allowed_chars = true <->
          (48 <= c <= 57)%N \/ In c [43; 45; 42; 47; 40; 41; 46; 32]%N)
    /\ (forall (prompt : str) (c : char),
          In c (calc_of prompt) -> char_in c allowed_chars = false ->
          arithmetic_rule prompt = None)
    /\ (forall prompt : str,
          arithmetic_body prompt = Raised ->
          arithmetic_rule prompt = None
          /\ (is_greeting (strip (lower prompt)) = false ->
              is_time_query (strip (lower prompt)) = false ->
              is_date_query (strip (lower prompt)) = false ->
              handle_rule_based t prompt = None)).
Proof.
  intros t. split; [reflexivity|]. split; [reflexivity|].
  split; [exact allowed_chars_spec|].
  split; [exact arithmetic_rule_disallowed|].
  intros prompt H. split; [now apply arithmetic_rule_raised|].
  intros G T D. now apply handle_rule_based_raised.
Qed.

(** C8 as amended.  [handle_rule_based] is a function of the clock
    reading and the prompt, and touches no state.  A prompt that is a
    greeting, or that is neither a time nor a date query, gets the same
    result at any two clock readings; a time query gets the same result
    at two readings that agree on hour and minute; a date query that is
    not a time query gets the same result at two readings that agree on
    year, month and day. *)
Theorem C8_rule_engine_depends_on_clock_only_for_time_and_date :
  forall (t1 t2 : datetime) (prompt : str),
    (is_greeting (strip (lower prompt)) = true
     \/ (is_time_query (strip (lower prompt)) = false
         /\ is_date_query (strip (lower prompt)) = false) ->
     handle_rule_based t1 prompt = handle_rule_based t2 prompt)
    /\ (hour t1 = hour t2 -> minute t1 = minute t2 ->
        is_time_query (strip (lower prompt)) = true ->
        handle_rule_based t1 prompt = handle_rule_based t2 prompt)
    /\ (year t1 = year t2 -> month t1 = month t2 -> day t1 = day t2 ->
        is_time_query (strip (lower prompt)) = false ->
        handle_rule_based t1 prompt = handle_rule_based t2 prompt).
Proof.
  intros t1 t2 prompt. unfold handle_rule_based. repeat split.
  - intros [G | [T D]]; [now rewrite G | rewrite T, D; reflexivity].
  - intros Hh Hm T. rewrite T. unfold strftime_clock. now rewrite Hh, Hm.
  - intros Hy Hmo Hd T. rewrite T. unfold strftime_date, weekday, toordinal.
    now rewrite Hy, Hmo, Hd.
Qed.

End RuleFacts.

(** Two calls with the prompt "what time is it", made at 09:30 and at
    21:45, return different texts. *)
Lemma C8_same_prompt_two_answers :
  @handle_rule_based ascii_runtime half_past_nine (lit "what time is it")
  <> @handle_rule_based ascii_runtime quarter_to_ten_pm (lit "what time is it").
Proof. vm_compute. discriminate. Qed.

(** The same under any runtime: the prompt is ASCII. *)
Lemma time_answer_varies `{RT : PyRuntime} :
  handle_rule_based half_past_nine (lit "what time is it")
    = Some ([0x23F0; 32]%N ++ lit "09:30 AM")
  /\ handle_rule_based quarter_to_ten_pm (lit "what time is it")
    = Some ([0x23F0; 32]%N ++ lit "09:45 PM").
Proof. split; reflexivity. Qed.

Example rule_declines_on_letters `{RT : PyRuntime} :
  calc_of (lit "what is x+1") = lit "x+1"
  /\ arithmetic_rule (lit "what is x+1") = None.
Proof. split; reflexivity. Qed.

Example division_by_zero_is_swallowed `{RT : PyRuntime} (t : datetime) :
  builtin_eval (lit "1/0") = None ->
  arithmetic_body (lit "1/0") = Raised
  /\ handle_rule_based t (lit "1/0") = None.
Proof.
  intros H.
  assert (B : arithmetic_body (lit "1/0") = Raised).
  { apply arithmetic_body_raised_iff. repeat split; try reflexivity.
    unfold eval_str. exact H. }
  split; [exact B|].
  now apply handle_rule_based_raised.
Qed.

(** ** The router *)

Lemma cloud_inference_failed (env : Env) (prompt : str) (m : Z) (w : World) :
  cloud_answer env = None ->
  cloud_inference env prompt m w = ((None, 0%Z), with_call w (CloudCall prompt m)).
Proof.
  unfold cloud_answer, cloud_inference, bind, record_call, ret.
  destruct (cloud_post env) as [| | |d]; try reflexivity.
  destruct (content d); [discriminate | reflexivity].
Qed.

Lemma cloud_inference_parsed (env : Env) (prompt : str) (m : Z) (w : World) (a : str) :
  cloud_answer env = Some a ->
  cloud_inference env prompt m w =
    ((Some a, match reported_total env with Some t => t | None => m end),
     with_stats (with_call w (CloudCall prompt m))
       (add_reasoning (match reported_reasoning env with Some r => r | None => 0%Z end)
          (stats (self w)))).
Proof.
  unfold cloud_answer, reported_total, reported_reasoning,
    cloud_inference, bind, record_call, modify_stats, ret, with_stats, with_call.
  destruct (cloud_post env) as [| | |d]; try discriminate.
  destruct (content d) as [text|]; [|discriminate].
  cbn [option_map]. intros H. injection H as <-.
  destruct (usage d) as [u|]; cbn; [|reflexivity].
  destruct (completion_tokens_details u); reflexivity.
Qed.

Lemma local_inference_spec (env : Env) (prompt : str) (m : Z) (w : World) :
  local_inference env prompt m w
  = (local_reply env (self w), with_call w (LocalCall prompt m)).
Proof.
  unfold local_inference, local_reply, bind, record_call, get_self, ret, with_call.
  cbn [self]. destruct (use_local (self w)); cbn; [|reflexivity].
  destruct (local_model (self w)); cbn; [|reflexivity].
  destruct (device (self w)); cbn; [|reflexivity].
  destruct (local_generate env); reflexivity.
Qed.

Section RouterFacts.
Context {RT : PyRuntime}.

Lemma cloud_step_failed (env : Env) (prompt : str) (w : World) :
  cloud_answer env = None ->
  cloud_step env prompt w = (error_result, with_call w (CloudCall prompt 150)).
Proof.
  intros H. unfold cloud_step, bind. now rewrite (cloud_inference_failed _ _ _ _ H).
Qed.

Lemma cloud_step_empty (env : Env) (prompt : str) (w : World) :
  cloud_answer env = Some [] ->
  cloud_step env prompt w =
    (error_result,
     with_stats (with_call w (CloudCall prompt 150))
       (add_reasoning (match reported_reasoning env with Some r => r | None => 0%Z end)
          (stats (self w)))).
Proof.
  intros H. unfold cloud_step, bind. now rewrite (cloud_inference_parsed _ _ _ _ _ H).
Qed.

Lemma cloud_step_answered (env : Env) (prompt : str) (w : World) (a : str) :
  cloud_answer env = Some a -> truthy a = true ->
  cloud_step env prompt w =
    (cloud_result a (match reported_total env with Some t => t | None => 150%Z end),
     with_stats (with_call w (CloudCall prompt 150))
       (update_stats (lit "cloud")
          (match reported_total env with Some t => t | None => 150%Z end)
          (add_reasoning (match reported_reasoning env with Some r => r | None => 0%Z end)
             (stats (self w))))).
Proof.
  intros H T. unfold cloud_step, bind. rewrite (cloud_inference_parsed _ _ _ _ _ H).
  cbn [truthy_opt]. rewrite T. reflexivity.
Qed.

Lemma before_cloud_self (prompt : str) (w : World) :
  self (before_cloud prompt w) = self w.
Proof. unfold before_cloud. now destruct (_ && _). Qed.

(** [answer_question] on the rule path. *)
Lemma answer_question_rule (env : Env) (prompt : str) (w : World) (r : str) :
  handle_rule_based (now env) prompt = Some r ->
  answer_question env prompt w =
    ({| answer := r; source := lit "rule-based"; tokens := 0; co2 := 0 |},
     with_stats w (update_stats (lit "rule-based") 0 (stats (self w)))).
Proof.
  intros H. unfold answer_question. rewrite H. cbn [truthy_opt].
  rewrite (handle_rule_based_truthy _ _ _ H). reflexivity.
Qed.

(** [answer_question] on the local path. *)
Lemma answer_question_local (env : Env) (prompt : str) (w : World) (a : str) :
  handle_rule_based (now env) prompt = None ->
  str_eqb (categorize_complexity prompt) (lit "simple") && use_local (self w) = true ->
  local_reply env (self w) = Some a -> truthy a = true ->
  answer_question env prompt w =
    ({| answer := local_tag ++ a; source := lit "local"; tokens := 0; co2 := 0 |},
     with_stats (with_call w (LocalCall prompt 100))
       (update_stats (lit "local") 0 (stats (self w)))).
Proof.
  intros H C L T. unfold answer_question. rewrite H. cbn [truthy_opt].
  unfold bind at 1. unfold get_self at 1. rewrite C.
  unfold bind at 1. rewrite local_inference_spec, L. cbn [truthy_opt]. rewrite T.
  reflexivity.
Qed.

(** [answer_question] when neither the rules nor the local model
    answer: the cloud step decides. *)
Lemma answer_question_cloud (env : Env) (prompt : str) (w : World) :
  handle_rule_based (now env) prompt = None ->
  (str_eqb (categorize_complexity prompt) (lit "simple") && use_local (self w) = true ->
   truthy_opt (local_reply env (self w)) = false) ->
  answer_question env prompt w = cloud_step env prompt (before_cloud prompt w).
Proof.
  intros H L. unfold answer_question, before_cloud. rewrite H. cbn [truthy_opt].
  unfold bind at 1. unfold get_self at 1.
  destruct (str_eqb _ _ && use_local (self w)); [|reflexivity].
  unfold bind at 1. rewrite local_inference_spec, (L eq_refl). reflexivity.
Qed.

(** C1.  Whenever the rule engine returns an answer for a prompt,
    [answer_question] returns that text with source rule-based, 0 tokens
    and 0 CO2; the trace of backend calls is what it was, so neither
    [local_inference] nor [cloud_inference] is called; and the statistics
    are those of one rule-based update. *)
Theorem C1_rule_answer_short_circuits :
  forall (env : Env) (prompt r : str) (w : World),
    handle_rule_based (now env) prompt = Some r ->
    let (res, w') := answer_question env prompt w in
    res = {| answer := r; source := lit "rule-based"; tokens := 0; co2 := 0 |}
    /\ trace w' = trace w
    /\ stats (self w') = update_stats (lit "rule-based") 0 (stats (self w)).
Proof.
  intros env prompt r w H. rewrite (answer_question_rule _ _ w _ H).
  repeat split.
Qed.

Lemma add_reasoning_0 (s : Stats) : add_reasoning 0 s = s.
Proof. destruct s. unfold add_reasoning. cbn. now rewrite Z.add_0_r. Qed.

(** The cloud step never changes more than the cloud counter, the total
    of tokens used and the reasoning tokens. *)
Lemma cloud_step_error (env : Env) (prompt : str) (w : World) :
  truthy_opt (cloud_answer env) = false ->
  cloud_step env prompt w =
    (error_result,
     with_stats (with_call w (CloudCall prompt 150))
       (add_reasoning (accrued_reasoning env) (stats (self w)))).
Proof.
  intros H. unfold accrued_reasoning.
  destruct (cloud_answer env) as [a|] eqn:A.
  - destruct a; [|discriminate]. rewrite (cloud_step_empty _ _ _ A).
    destruct (reported_reasoning env); reflexivity.
  - rewrite (cloud_step_failed _ _ _ A), add_reasoning_0.
    destruct w as [[? ? ? ?] ?]. reflexivity.
Qed.

(** C4 as amended.  When the rule engine declines, the local attempt (if
    one is made) gives no text and the cloud attempt gives no text,
    [answer_question] returns the apology with source error, 0 tokens and
    0 CO2, and the statistics after the call are those before it except
    for [reasoning_tokens_used], which grows by the reasoning tokens the
    cloud reply reported; they are unchanged when the cloud call failed
    outright or reported no reasoning tokens. *)
Theorem C4_error_path_touches_only_reasoning_tokens :
  forall (env : Env) (prompt : str) (w : World),
    handle_rule_based (now env) prompt = None ->
    (str_eqb (categorize_complexity prompt) (lit "simple") && use_local (self w) = true ->
     truthy_opt (local_reply env (self w)) = false) ->
    truthy_opt (cloud_answer env) = false ->
    let (res, w') := answer_question env prompt w in
    res = {| answer := apology; source := lit "error"; tokens := 0; co2 := 0 |}
    /\ stats (self w') =
         {| rule_based_responses := rule_based_responses (stats (self w));
            local_responses := local_responses (stats (self w));
            cloud_responses := cloud_responses (stats (self w));
            tokens_saved := tokens_saved (stats (self w));
            co2_saved_grams := co2_saved_grams (stats (self w));
            water_saved_ml := water_saved_ml (stats (self w));
            total_tokens_used := total_tokens_used (stats (self w));
            reasoning_tokens_used :=
              reasoning_tokens_used (stats (self w)) + accrued_reasoning env |}
    /\ (cloud_answer env = None \/ reported_reasoning env = None ->
        stats (self w') = stats (self w)).
Proof.
  intros env prompt w H L C.
  rewrite (answer_question_cloud _ _ _ H L), (cloud_step_error _ _ _ C).
  cbn [with_stats self stats]. rewrite before_cloud_self.
  split; [reflexivity|]. split; [reflexivity|].
  intros Z0. assert (E : accrued_reasoning env = 0%Z).
  { unfold accrued_reasoning. destruct Z0 as [-> | ->]; [reflexivity|].
    now destruct (cloud_answer env). }
  rewrite E. apply add_reasoning_0.
Qed.


(** C10 as amended.  When the cloud reply parses as far as its message
    content and its usage has no [total_tokens], [cloud_inference] returns
    the budget [max_tokens] as the token count (150 in the call made by
    [answer_question]).  When the cloud backend is reached and the answer
    text is non-empty, the result carries 150 tokens and the CO2 estimate
    for 150 tokens, and [total_tokens_used] grows by 150.  When the answer
    text is empty, the result is the error answer with 0 tokens and
    [total_tokens_used] keeps its value. *)
Theorem C10_missing_total_defaults_to_budget :
  forall (env : Env) (prompt : str) (w : World) (a : str),
    cloud_answer env = Some a ->
    reported_total env = None ->
    (forall m : Z, fst (cloud_inference env prompt m w) = (Some a, m))
    /\ (handle_rule_based (now env) prompt = None ->
        (str_eqb (categorize_complexity prompt) (lit "simple") && use_local (self w) = true ->
         truthy_opt (local_reply env (self w)) = false) ->
        let (res, w') := answer_question env prompt w in
        (truthy a = true ->
         tokens res = 150%Z
         /\ co2 res = fst (calculate_environmental_impact 150)
         /\ total_tokens_used (stats (self w'))
            = (total_tokens_used (stats (self w)) + 150)%Z)
        /\ (truthy a = false ->
            tokens res = 0%Z
            /\ source res = lit "error"
            /\ total_tokens_used (stats (self w')) = total_tokens_used (stats (self w)))).
Proof.
  intros env prompt w a A R. split.
  - intros m. rewrite (cloud_inference_parsed _ _ _ _ _ A), R. reflexivity.
  - intros H L. rewrite (answer_question_cloud _ _ _ H L).
    destruct (truthy a) eqn:T.
    + rewrite (cloud_step_answered _ _ _ _ A T), R.
      cbn [with_stats self stats]. rewrite before_cloud_self.
      split; [intros _; repeat split | discriminate].
    + destruct a; [|discriminate]. rewrite (cloud_step_empty _ _ _ A).
      cbn [with_stats self stats]. rewrite before_cloud_self.
      split; [discriminate | intros _; repeat split].
Qed.

End RouterFacts.

(** ** The statistics over a session (C2) *)







Lemma call_effect_total (env : Env) (s s' : Stats) (r : Result) :
  call_effect env s r s' ->
  total_queries s' = (total_queries s + (if answered r then 1 else 0))%Z.
Proof.
  intros H. unfold answered, total_queries.
  destruct H as [r H | r H | r H | r H]; rewrite H; cbn; lia.
Qed.



Section SessionFacts.
Context {RT : PyRuntime}.

Lemma cloud_step_effect (env : Env) (prompt : str) (w : World) :
  call_effect env (stats (self w))
    (fst (cloud_step env prompt (before_cloud prompt w)))
    (stats (self (snd (cloud_step env prompt (before_cloud prompt w))))).
Proof.
  destruct (truthy_opt (cloud_answer env)) eqn:T.
  - destruct (cloud_answer env) as [a|] eqn:A; [|discriminate].
    rewrite (cloud_step_answered _ _ _ _ A T).
    cbn [fst snd with_stats self stats]. rewrite before_cloud_self.
    replace (match reported_reasoning env with Some r => r | None => 0%Z end)
      with (accrued_reasoning env) by (unfold accrued_reasoning; now rewrite A).
    now apply effect_cloud.
  - rewrite (cloud_step_error _ _ _ T).
    cbn [fst snd with_stats self stats]. rewrite before_cloud_self.
    now apply effect_error.
Qed.

(** One call of [answer_question] has one of the four effects. *)
Lemma answer_question_effect (env : Env) (prompt : str) (w : World) :
  call_effect env (stats (self w))
    (fst (answer_question env prompt w))
    (stats (self (snd (answer_question env prompt w)))).
Proof.
  destruct (handle_rule_based (now env) prompt) as [r|] eqn:H.
  { rewrite (answer_question_rule _ _ w _ H). now apply effect_rule. }
  destruct (str_eqb (categorize_complexity prompt) (lit "simple") && use_local (self w))
    eqn:C.
  - destruct (local_reply env (self w)) as [a|] eqn:L.
    + destruct (truthy a) eqn:T.
      * rewrite (answer_question_local _ _ _ _ H C L T). now apply effect_local.
      * rewrite (answer_question_cloud env prompt w H)
          by (intros _; rewrite L; exact T).
        apply cloud_step_effect.
    + rewrite (answer_question_cloud env prompt w H)
        by (intros _; rewrite L; reflexivity).
      apply cloud_step_effect.
  - rewrite (answer_question_cloud env prompt w H) by (rewrite C; discriminate).
    apply cloud_step_effect.
Qed.

End SessionFacts.

Section Sessions.
Context {RT : PyRuntime}.

Lemma serve_cons (env : Env) (prompt : str) (rest : list (Env * str)) (w : World) :
  serve ((env, prompt) :: rest) w
  = (fst (answer_question env prompt w)
       :: fst (serve rest (snd (answer_question env prompt w))),
     snd (serve rest (snd (answer_question env prompt w)))).
Proof.
  cbn [serve]. unfold bind, ret.
  destruct (answer_question env prompt w) as [r w1].
  cbn [fst snd]. now destruct (serve rest w1).
Qed.

Lemma count_answered_cons (r : Result) (rs : list Result) :
  count_answered (r :: rs)
  = ((if answered r then 1 else 0) + count_answered rs)%Z.
Proof.
  unfold count_answered. cbn [filter]. destruct (answered r); cbn [List.length]; lia.
Qed.

(** Over a session the three counters grow by the number of results
    whose source is not error. *)
Lemma serve_total (requests : list (Env * str)) (w : World) :
  total_queries (stats (self (snd (serve requests w))))
  = (total_queries (stats (self w)) + count_answered (fst (serve requests w)))%Z.
Proof.
  revert w. induction requests as [|[env prompt] rest IH]; intros w.
  - cbn. unfold count_answered. cbn. lia.
  - rewrite serve_cons. cbn [fst snd]. rewrite IH, count_answered_cons.
    rewrite (call_effect_total _ _ _ _ (answer_question_effect env prompt w)). lia.
Qed.




End Sessions.

(** ** The order of the tiers *)

Section TierFacts.
Context {RT : PyRuntime}.

Lemma cloud_step_trace (env : Env) (prompt : str) (w : World) :
  trace (snd (cloud_step env prompt w)) = trace w ++ [CloudCall prompt 150].
Proof.
  destruct (truthy_opt (cloud_answer env)) eqn:T.
  - destruct (cloud_answer env) as [a|] eqn:A; [|discriminate].
    now rewrite (cloud_step_answered _ _ _ _ A T).
  - now rewrite (cloud_step_error _ _ _ T).
Qed.

(** A prompt classified complex, or an object whose [use_local] is off,
    never reaches [local_inference]: when the rule engine declines, the
    one backend call made is the cloud call with a budget of 150. *)
Theorem complex_or_disabled_goes_straight_to_cloud :
  forall (env : Env) (prompt : str) (w : World),
    handle_rule_based (now env) prompt = None ->
    categorize_complexity prompt = lit "complex" \/ use_local (self w) = false ->
    trace (snd (answer_question env prompt w)) = trace w ++ [CloudCall prompt 150].
Proof.
  intros env prompt w H D.
  assert (C : str_eqb (categorize_complexity prompt) (lit "simple")
              && use_local (self w) = false).
  { destruct D as [-> | ->]; [reflexivity | apply andb_false_r]. }
  rewrite (answer_question_cloud env prompt w H) by (rewrite C; discriminate).
  rewrite cloud_step_trace. unfold before_cloud. now rewrite C.
Qed.

(** A simple prompt on an object with [use_local] on, to which the local
    model gives a non-empty text, is answered with that text, source
    local, 0 tokens and 0 CO2; the local backend is the only one called
    and the statistics are those of one local update. *)
Theorem local_answer_stops_the_chain :
  forall (env : Env) (prompt a : str) (w : World),
    handle_rule_based (now env) prompt = None ->
    categorize_complexity prompt = lit "simple" ->
    use_local (self w) = true ->
    local_reply env (self w) = Some a ->
    truthy a = true ->
    answer_question env prompt w =
      ({| answer := local_tag ++ a; source := lit "local"; tokens := 0; co2 := 0 |},
       {| self := {| use_local := use_local (self w);
                     local_model := local_model (self w);
                     device := device (self w);
                     stats := update_stats (lit "local") 0 (stats (self w)) |};
          trace := trace w ++ [LocalCall prompt 100] |}).
Proof.
  intros env prompt a w H C U L T.
  apply (answer_question_local env prompt w a H); [|exact L|exact T].
  now rewrite C, U.
Qed.


End TierFacts.

(** A reply from which no message content can be read leaves the
    statistics alone, whatever usage it reports: [cloud_inference]
    returns no answer and 0 tokens. *)
Theorem unread_reply_adds_nothing :
  forall (env : Env) (prompt : str) (m : Z) (w : World),
    cloud_answer env = None ->
    fst (cloud_inference env prompt m w) = (None, 0%Z)
    /\ self (snd (cloud_inference env prompt m w)) = self w.
Proof.
  intros env prompt m w A. now rewrite (cloud_inference_failed _ _ _ _ A).
Qed.

(** ** One call, case by case *)

Section CallCases.
Context {RT : PyRuntime}.

(** The four ways [answer_question] ends, each with its result and the
    world it leaves. *)
Lemma answer_question_cases (env : Env) (prompt : str) (w : World) :
  (exists r,
      handle_rule_based (now env) prompt = Some r
      /\ answer_question env prompt w =
           ({| answer := r; source := lit "rule-based"; tokens := 0; co2 := 0 |},
            with_stats w (update_stats (lit "rule-based") 0 (stats (self w)))))
  \/ (exists a,
         handle_rule_based (now env) prompt = None
         /\ str_eqb (categorize_complexity prompt) (lit "simple") && use_local (self w) = true
         /\ local_reply env (self w) = Some a /\ truthy a = true
         /\ answer_question env prompt w =
              ({| answer := local_tag ++ a; source := lit "local"; tokens := 0; co2 := 0 |},
               with_stats (with_call w (LocalCall prompt 100))
                 (update_stats (lit "local") 0 (stats (self w)))))
  \/ (exists a,
         handle_rule_based (now env) prompt = None
         /\ cloud_answer env = Some a /\ truthy a = true
         /\ answer_question env prompt w =
              (cloud_result a (billed_tokens env),
               with_stats (with_call (before_cloud prompt w) (CloudCall prompt 150))
                 (update_stats (lit "cloud") (billed_tokens env)
                    (add_reasoning (accrued_reasoning env) (stats (self w))))))
  \/ (handle_rule_based (now env) prompt = None
      /\ truthy_opt (cloud_answer env) = false
      /\ answer_question env prompt w =
           (error_result,
            with_stats (with_call (before_cloud prompt w) (CloudCall prompt 150))
              (add_reasoning (accrued_reasoning env) (stats (self w))))).
Proof.
  assert (D : {r | handle_rule_based (now env) prompt = Some r}
              + {handle_rule_based (now env) prompt = None})
    by (destruct (handle_rule_based (now env) prompt) as [r|]; eauto).
  destruct D as [[r H] | H].
  { left. exists r. split; [exact H|]. now apply answer_question_rule. }
  right.
  assert (K : (str_eqb (categorize_complexity prompt) (lit "simple") && use_local (self w) = true ->
               truthy_opt (local_reply env (self w)) = false) ->
              answer_question env prompt w = cloud_step env prompt (before_cloud prompt w))
    by (intros L; exact (answer_question_cloud env prompt w H L)).
  assert (S : cloud_step env prompt (before_cloud prompt w) = answer_question env prompt w ->
              (exists a,
                  handle_rule_based (now env) prompt = None
                  /\ cloud_answer env = Some a /\ truthy a = true
                  /\ answer_question env prompt w =
                       (cloud_result a (billed_tokens env),
                        with_stats (with_call (before_cloud prompt w) (CloudCall prompt 150))
                          (update_stats (lit "cloud") (billed_tokens env)
                             (add_reasoning (accrued_reasoning env) (stats (self w))))))
              \/ (handle_rule_based (now env) prompt = None
                  /\ truthy_opt (cloud_answer env) = false
                  /\ answer_question env prompt w =
                       (error_result,
                        with_stats (with_call (before_cloud prompt w) (CloudCall prompt 150))
                          (add_reasoning (accrued_reasoning env) (stats (self w)))))).
  { intros <-. destruct (truthy_opt (cloud_answer env)) eqn:T.
    - left. destruct (cloud_answer env) as [a|] eqn:A; [|discriminate].
      exists a. split; [exact H|]. split; [reflexivity|]. split; [exact T|].
      rewrite (cloud_step_answered _ _ _ _ A T). rewrite before_cloud_self.
      unfold billed_tokens, accrued_reasoning. now rewrite A.
    - right. split; [exact H|]. split; [reflexivity|].
      rewrite (cloud_step_error _ _ _ T). now rewrite before_cloud_self. }
  destruct (str_eqb (categorize_complexity prompt) (lit "simple") && use_local (self w))
    eqn:C.
  - destruct (local_reply env (self w)) as [a|] eqn:L.
    + destruct (truthy a) eqn:T.
      * left. exists a. repeat split; try assumption.
        now apply answer_question_local.
      * right. apply S. symmetry. apply K. intros _. exact T.
    + right. apply S. symmetry. apply K. reflexivity.
  - right. apply S. symmetry. apply K. discriminate.
Qed.

(** A call leaves [use_local], [local_model] and [device] as they are. *)
Lemma answer_question_flags (env : Env) (prompt : str) (w : World) :
  use_local (self (snd (answer_question env prompt w))) = use_local (self w)
  /\ local_model (self (snd (answer_question env prompt w))) = local_model (self w)
  /\ device (self (snd (answer_question env prompt w))) = device (self w).
Proof.
  destruct (answer_question_cases env prompt w)
    as [(r & _ & E) | [(a & _ & _ & _ & _ & E) | [(a & _ & _ & _ & E) | (_ & _ & E)]]];
    rewrite E; cbn [snd with_stats with_call self use_local local_model device];
    try rewrite before_cloud_self; repeat split.
Qed.

Lemma serve_flags (requests : list (Env * str)) (w : World) :
  use_local (self (snd (serve requests w))) = use_local (self w)
  /\ local_model (self (snd (serve requests w))) = local_model (self w)
  /\ device (self (snd (serve requests w))) = device (self w).
Proof.
  revert w. induction requests as [|[env prompt] rest IH]; intros w.
  - repeat split.
  - rewrite serve_cons. cbn [snd].
    destruct (IH (snd (answer_question env prompt w))) as (A & B & C).
    destruct (answer_question_flags env prompt w) as (A' & B' & C').
    rewrite A, B, C. auto.
Qed.

Lemma before_cloud_trace (prompt : str) (w : World) :
  trace (before_cloud prompt w) = trace w
  \/ trace (before_cloud prompt w) = trace w ++ [LocalCall prompt 100].
Proof. unfold before_cloud. destruct (_ && _); [right | left]; reflexivity. Qed.

Lemma skipn_own_length {A} (l m : list A) : skipn (List.length l) (l ++ m) = m.
Proof. induction l; [reflexivity | assumption]. Qed.

Lemma answer_question_trace (env : Env) (prompt : str) (w : World) :
  trace (snd (answer_question env prompt w)) = trace w ++ calls_of env prompt w.
Proof.
  unfold calls_of.
  destruct (answer_question_cases env prompt w)
    as [(r & _ & E) | [(a & _ & _ & _ & _ & E) | [(a & _ & _ & _ & E) | (_ & _ & E)]]];
    rewrite E; cbn [snd with_stats with_call trace].
  - now rewrite skipn_all, app_nil_r.
  - now rewrite skipn_own_length.
  - destruct (before_cloud_trace prompt w) as [-> | ->];
      [|rewrite <- app_assoc]; now rewrite skipn_own_length.
  - destruct (before_cloud_trace prompt w) as [-> | ->];
      [|rewrite <- app_assoc]; now rewrite skipn_own_length.
Qed.

(** A request calls each backend at most once, the local one first: a
    rule answer comes with no call, a local answer with one local call,
    a cloud answer or the error answer with one cloud call, after one
    local call when the local tier was tried. *)
Theorem no_backend_is_called_twice :
  forall (env : Env) (prompt : str) (w : World),
    trace (snd (answer_question env prompt w)) = trace w ++ calls_of env prompt w
    /\ ((calls_of env prompt w = []
         /\ source (fst (answer_question env prompt w)) = lit "rule-based")
        \/ (calls_of env prompt w = [LocalCall prompt 100]
            /\ source (fst (answer_question env prompt w)) = lit "local")
        \/ ((calls_of env prompt w = [CloudCall prompt 150]
             \/ calls_of env prompt w = [LocalCall prompt 100; CloudCall prompt 150])
            /\ (source (fst (answer_question env prompt w)) = lit "cloud"
                \/ source (fst (answer_question env prompt w)) = lit "error"))).
Proof.
  intros env prompt w. split; [apply answer_question_trace|].
  unfold calls_of.
  destruct (answer_question_cases env prompt w)
    as [(r & _ & E) | [(a & _ & _ & _ & _ & E) | [(a & _ & _ & _ & E) | (_ & _ & E)]]];
    rewrite E; cbn [fst snd with_stats with_call trace source cloud_result error_result].
  - left. split; [|reflexivity]. apply skipn_all.
  - right; left. split; [|reflexivity]. now rewrite skipn_own_length.
  - right; right. split; [|left; reflexivity].
    destruct (before_cloud_trace prompt w) as [-> | ->];
      [left | right; rewrite <- app_assoc]; now rewrite skipn_own_length.
  - right; right. split; [|right; reflexivity].
    destruct (before_cloud_trace prompt w) as [-> | ->];
      [left | right; rewrite <- app_assoc]; now rewrite skipn_own_length.
Qed.

End CallCases.


(** ** Construction and the local tier *)

Lemma init_use_local (cfg : Config) (o : LoadOutcome) (ul fc : bool) :
  use_local (__init__ cfg o ul fc)
  = ul && negb fc && SHOULD_IMPORT_ML cfg && loaded o.
Proof.
  destruct cfg as [[] []], o, ul, fc; reflexivity.
Qed.

Lemma init_loaded (cfg : Config) (o : LoadOutcome) (ul fc : bool) :
  use_local (__init__ cfg o ul fc) = true ->
  local_model (__init__ cfg o ul fc) = true /\ device (__init__ cfg o ul fc) = true.
Proof.
  destruct cfg as [[] []], o, ul, fc; cbn; intros H; try discriminate; split; reflexivity.
Qed.

(** After [__init__] the local tier is on exactly when it was asked
    for, the cloud was not forced, the machine-learning imports are on,
    and the model loaded and passed its test generation; the model and
    the device are then set.  The statistics always start at zero. *)
Theorem local_tier_is_on_iff_the_model_loaded :
  forall (cfg : Config) (o : LoadOutcome) (ul fc : bool),
    (use_local (__init__ cfg o ul fc) = true <->
       ul = true /\ fc = false /\ SHOULD_IMPORT_ML cfg = true /\ o = Loaded)
    /\ (use_local (__init__ cfg o ul fc) = true ->
        local_model (__init__ cfg o ul fc) = true
        /\ device (__init__ cfg o ul fc) = true)
    /\ stats (__init__ cfg o ul fc) = fresh_stats.
Proof.
  intros cfg o ul fc. split; [|split].
  - rewrite init_use_local, !andb_true_iff, negb_true_iff.
    destruct o; cbn [loaded]; intuition (try discriminate; try reflexivity).
  - apply init_loaded.
  - destruct cfg as [[] []], o, ul, fc; reflexivity.
Qed.

Section SessionCalls.
Context {RT : PyRuntime}.

Lemma cloud_only_calls (env : Env) (prompt : str) (w : World) :
  use_local (self w) = false ->
  calls_of env prompt w = [] \/ calls_of env prompt w = [CloudCall prompt 150].
Proof.
  intros U.
  assert (B : before_cloud prompt w = w)
    by (unfold before_cloud; now rewrite U, andb_false_r).
  unfold calls_of.
  destruct (answer_question_cases env prompt w)
    as [(r & _ & E) | [(a & _ & C & _) | [(a & _ & _ & _ & E) | (_ & _ & E)]]].
  - left. rewrite E. apply skipn_all.
  - rewrite U, andb_false_r in C. discriminate.
  - right. rewrite E, B. cbn [snd with_stats with_call trace]. apply skipn_own_length.
  - right. rewrite E, B. cbn [snd with_stats with_call trace]. apply skipn_own_length.
Qed.

Lemma cloud_only_session (requests : list (Env * str)) (w : World) :
  use_local (self w) = false ->
  forallb is_cloud_call (trace w) = true ->
  forallb is_cloud_call (trace (snd (serve requests w))) = true.
Proof.
  revert w. induction requests as [|[env prompt] rest IH]; intros w U T.
  - exact T.
  - rewrite serve_cons. cbn [snd]. apply IH.
    + destruct (answer_question_flags env prompt w) as (-> & _). exact U.
    + rewrite answer_question_trace, forallb_app, T.
      destruct (cloud_only_calls env prompt w U) as [-> | ->]; reflexivity.
Qed.

(** An object built with [use_local=False] or [force_cloud=True], or
    whose model did not load, never calls [local_inference]: in any
    session every backend call it makes is a cloud call. *)
Theorem cloud_only_objects_never_call_the_local_model :
  forall (cfg : Config) (o : LoadOutcome) (ul fc : bool) (requests : list (Env * str)),
    ul = false \/ fc = true \/ o <> Loaded ->
    forallb is_cloud_call (trace (snd (serve requests (construct cfg o ul fc)))) = true.
Proof.
  intros cfg o ul fc requests H. apply cloud_only_session; [|reflexivity].
  cbn [construct self]. rewrite init_use_local.
  destruct H as [-> | [-> | H]].
  - reflexivity.
  - now rewrite andb_false_r.
  - destruct o; try (now rewrite andb_false_r). now contradiction H.
Qed.

Lemma local_tier_called_first (env : Env) (prompt : str) (w : World) :
  use_local (self w) = true ->
  handle_rule_based (now env) prompt = None ->
  categorize_complexity prompt = lit "simple" ->
  exists rest, calls_of env prompt w = LocalCall prompt 100 :: rest.
Proof.
  intros U H S.
  assert (B : before_cloud prompt w = with_call w (LocalCall prompt 100))
    by (unfold before_cloud; now rewrite S, U).
  unfold calls_of.
  destruct (answer_question_cases env prompt w)
    as [(r & H' & _) | [(a & _ & _ & _ & _ & E) | [(a & _ & _ & _ & E) | (_ & _ & E)]]].
  - congruence.
  - exists []. rewrite E. cbn [snd with_stats with_call trace]. apply skipn_own_length.
  - exists [CloudCall prompt 150]. rewrite E, B. cbn [snd with_stats with_call trace].
    rewrite <- app_assoc. apply skipn_own_length.
  - exists [CloudCall prompt 150]. rewrite E, B. cbn [snd with_stats with_call trace].
    rewrite <- app_assoc. apply skipn_own_length.
Qed.

(** No call switches the local tier off or on: a session leaves
    [use_local], [local_model] and [device] as they were.  So on an
    object with [use_local] on, whatever the requests before it came to
    (a local generation that raised or gave nothing included), a simple
    prompt the rule engine declines is first handed to
    [local_inference]. *)
Theorem local_tier_is_never_switched_off :
  forall (before : list (Env * str)) (env : Env) (prompt : str) (w : World),
    (use_local (self (snd (serve before w))) = use_local (self w)
     /\ local_model (self (snd (serve before w))) = local_model (self w)
     /\ device (self (snd (serve before w))) = device (self w))
    /\ (use_local (self w) = true ->
        handle_rule_based (now env) prompt = None ->
        categorize_complexity prompt = lit "simple" ->
        exists rest,
          calls_of env prompt (snd (serve before w)) = LocalCall prompt 100 :: rest).
Proof.
  intros before env prompt w. split; [apply serve_flags|].
  intros U H S. apply local_tier_called_first; [|exact H|exact S].
  destruct (serve_flags before w) as (-> & _). exact U.
Qed.

End SessionCalls.


(** ** What the statistics and the results always satisfy *)

Lemma update_stats_rule (s : Stats) (t : Z) :
  update_stats (lit "rule-based") t s =
    {| rule_based_responses := rule_based_responses s + 1;
       local_responses := local_responses s;
       cloud_responses := cloud_responses s;
       tokens_saved := tokens_saved s + 50;
       co2_saved_grams := co2_saved_grams s + inject_Z 50 * 0.002;
       water_saved_ml := water_saved_ml s + 25.0;
       total_tokens_used := total_tokens_used s;
       reasoning_tokens_used := reasoning_tokens_used s |}.
Proof. reflexivity. Qed.

Lemma update_stats_local (s : Stats) (t : Z) :
  update_stats (lit "local") t s =
    {| rule_based_responses := rule_based_responses s;
       local_responses := local_responses s + 1;
       cloud_responses := cloud_responses s;
       tokens_saved := tokens_saved s + 100;
       co2_saved_grams := co2_saved_grams s + inject_Z 100 * 0.002;
       water_saved_ml := water_saved_ml s + 25.0;
       total_tokens_used := total_tokens_used s;
       reasoning_tokens_used := reasoning_tokens_used s |}.
Proof. reflexivity. Qed.

Lemma update_stats_cloud (s : Stats) (t : Z) :
  update_stats (lit "cloud") t s =
    {| rule_based_responses := rule_based_responses s;
       local_responses := local_responses s;
       cloud_responses := cloud_responses s + 1;
       tokens_saved := tokens_saved s;
       co2_saved_grams := co2_saved_grams s;
       water_saved_ml := water_saved_ml s;
       total_tokens_used := total_tokens_used s + t;
       reasoning_tokens_used := reasoning_tokens_used s |}.
Proof. reflexivity. Qed.

Ltac stats_fields :=
  rewrite ?update_stats_rule, ?update_stats_local, ?update_stats_cloud;
  unfold add_reasoning;
  cbn [rule_based_responses local_responses cloud_responses tokens_saved
       co2_saved_grams water_saved_ml total_tokens_used reasoning_tokens_used].


Section SessionInvariants.
Context {RT : PyRuntime}.

Lemma serve_results_all (P : Result -> Prop) :
  (forall env prompt w, P (fst (answer_question env prompt w))) ->
  forall requests w, Forall P (fst (serve requests w)).
Proof.
  intros H requests. induction requests as [|[env prompt] rest IH]; intros w.
  - constructor.
  - rewrite serve_cons. cbn [fst]. constructor; [apply H | apply IH].
Qed.



(** One call adds the tokens of its result to [total_tokens_used]. *)
Lemma answer_question_tokens (env : Env) (prompt : str) (w : World) :
  total_tokens_used (stats (self (snd (answer_question env prompt w))))
  = (total_tokens_used (stats (self w)) + tokens (fst (answer_question env prompt w)))%Z.
Proof.
  destruct (answer_question_cases env prompt w)
    as [(r & _ & E) | [(a & _ & _ & _ & _ & E) | [(a & _ & _ & _ & E) | (_ & _ & E)]]];
    rewrite E; cbn [fst snd with_stats with_call self stats tokens cloud_result error_result];
    stats_fields; lia.
Qed.

Lemma serve_tokens (requests : list (Env * str)) (w : World) :
  total_tokens_used (stats (self (snd (serve requests w))))
  = (total_tokens_used (stats (self w)) + sum_tokens (fst (serve requests w)))%Z.
Proof.
  revert w. induction requests as [|[env prompt] rest IH]; intros w.
  - cbn. lia.
  - rewrite serve_cons. cbn [fst snd sum_tokens fold_right].
    rewrite IH, answer_question_tokens. unfold sum_tokens. lia.
Qed.

(** From fresh statistics, after any session, [total_tokens_used] is the
    sum of the token counts of the results returned, and only results
    with source cloud carry tokens. *)
Theorem total_tokens_used_is_the_sum_over_results :
  forall (requests : list (Env * str)) (ul lm dev : bool),
    total_tokens_used (stats (self (snd (serve requests (fresh ul lm dev)))))
    = sum_tokens (fst (serve requests (fresh ul lm dev)))
    /\ Forall (fun r => source r <> lit "cloud" -> tokens r = 0%Z)
         (fst (serve requests (fresh ul lm dev))).
Proof.
  intros requests ul lm dev. split.
  - rewrite serve_tokens. cbn. lia.
  - apply serve_results_all. intros env prompt w.
    destruct (answer_question_cases env prompt w)
      as [(r & _ & E) | [(a & _ & _ & _ & _ & E) | [(a & _ & _ & _ & E) | (_ & _ & E)]]];
      rewrite E; cbn [fst]; intros N; try reflexivity. now contradiction N.
Qed.

(** No result has an empty answer.  Its source is one of the four
    names; the answer of a local or cloud result starts with the tag of
    its tier, the answer of an error result is the apology; and a result
    that is not a cloud answer carries 0 tokens and 0 CO2. *)
Theorem every_result_is_well_formed :
  forall (env : Env) (prompt : str) (w : World),
    truthy (answer (fst (answer_question env prompt w))) = true
    /\ (source (fst (answer_question env prompt w)) = lit "rule-based"
        /\ handle_rule_based (now env) prompt
           = Some (answer (fst (answer_question env prompt w)))
        \/ source (fst (answer_question env prompt w)) = lit "local"
           /\ startswith local_tag (answer (fst (answer_question env prompt w))) = true
        \/ source (fst (answer_question env prompt w)) = lit "cloud"
           /\ startswith cloud_tag (answer (fst (answer_question env prompt w))) = true
        \/ source (fst (answer_question env prompt w)) = lit "error"
           /\ answer (fst (answer_question env prompt w)) = apology)
    /\ (source (fst (answer_question env prompt w)) <> lit "cloud" ->
        tokens (fst (answer_question env prompt w)) = 0%Z
        /\ co2 (fst (answer_question env prompt w)) = 0).
Proof.
  intros env prompt w.
  destruct (answer_question_cases env prompt w)
    as [(r & H & E) | [(a & _ & _ & _ & _ & E) | [(a & _ & _ & _ & E) | (_ & _ & E)]]];
    rewrite E; cbn [fst answer source tokens co2 cloud_result error_result].
  - split; [exact (handle_rule_based_truthy _ _ _ H)|]. split; [left; now split|].
    intros _. now split.
  - split; [reflexivity|]. split; [right; left; split; [reflexivity|]|].
    + apply startswith_iff. now exists a.
    + intros _. now split.
  - split; [reflexivity|]. split; [right; right; left; split; [reflexivity|]|].
    + apply startswith_iff. now exists a.
    + intros N. now contradiction N.
  - split; [reflexivity|]. split; [right; right; right; now split|].
    intros _. now split.
Qed.

(** The test [result['co2'] > 0] of the interactive loop holds exactly
    for results with a positive token count, which are cloud answers. *)
Lemma footprint_test (env : Env) (prompt : str) (w : World) :
  positive (co2 (fst (answer_question env prompt w)))
  = (0 <? tokens (fst (answer_question env prompt w)))%Z.
Proof.
  destruct (answer_question_cases env prompt w)
    as [(r & _ & E) | [(a & _ & _ & _ & _ & E) | [(a & _ & _ & _ & E) | (_ & _ & E)]]];
    rewrite E; cbn [fst co2 tokens cloud_result error_result]; try reflexivity.
  unfold positive, Qle_bool, calculate_environmental_impact, fst, Qmult, inject_Z.
  cbn [Qnum Qden].
  destruct (0 <? billed_tokens env)%Z eqn:B.
  - apply Z.ltb_lt in B. apply negb_true_iff, Z.leb_gt. lia.
  - apply Z.ltb_ge in B. apply negb_false_iff, Z.leb_le. lia.
Qed.

End SessionInvariants.


(** ** What [eval] is applied to *)

Lemma lower_same_table (RT : PyRuntime) (other_eval : str -> option str) (s : str) :
  @lower {| unicode_lower := @unicode_lower RT; builtin_eval := other_eval |} s
  = @lower RT s.
Proof.
  unfold lower. generalize s at 1 3 as whole. generalize 0%nat as i.
  induction s as [|c s IH]; intros i whole; cbn [lower_from unicode_lower].
  - reflexivity.
  - now rewrite IH.
Qed.

(** [handle_rule_based] applies [eval] to nothing but non-empty texts
    made of digits, the four operators, parentheses, the decimal point
    and the space: its result is the same under any other [eval] that
    agrees with the builtin on those texts. *)
Theorem eval_sees_only_arithmetic_text :
  forall (RT : PyRuntime) (other_eval : str -> option str) (t : datetime) (prompt : str),
    (forall e : str,
        truthy e = true ->
        forallb (fun c => char_in c allowed_chars) e = true ->
        other_eval e = builtin_eval e) ->
    @handle_rule_based {| unicode_lower := @unicode_lower RT; builtin_eval := other_eval |}
      t prompt
    = @handle_rule_based RT t prompt.
Proof.
  intros RT other_eval t prompt H.
  unfold handle_rule_based. rewrite lower_same_table.
  destruct (is_greeting _); [reflexivity|].
  destruct (is_time_query _); [reflexivity|].
  destruct (is_date_query _); [reflexivity|].
  unfold arithmetic_rule, arithmetic_body, calc_of. rewrite lower_same_table.
  destruct (existsb _ operators); [|reflexivity].
  set (calc := strip (fold_left (fun calc word => remove_all word calc) phrase_tokens
                        (@lower RT prompt))).
  destruct (truthy calc) eqn:T; [|reflexivity].
  destruct (forallb (fun c => char_in c allowed_chars) calc) eqn:A; [|reflexivity].
  cbn [andb]. unfold eval_str. cbn [builtin_eval].
  destruct (int_eval calc); [reflexivity|]. now rewrite (H calc T A).
Qed.

(** ** The clean-up of the local answer *)

Lemma lstrip_suffix (s : str) : exists a, s = a ++ lstrip s.
Proof.
  induction s as [|c s [a IH]]; [now exists []|].
  cbn [lstrip]. destruct (isspace c).
  - exists (c :: a). cbn. now rewrite <- IH.
  - now exists [].
Qed.

Lemma lstrip_head (s : str) (c : char) (r : str) :
  lstrip s = c :: r -> isspace c = false.
Proof.
  induction s as [|d s IH]; [discriminate|].
  cbn [lstrip]. destruct (isspace d) eqn:D; [exact IH|].
  intros H. injection H as -> _. exact D.
Qed.

Lemma lstrip_fixed (s : str) :
  match s with [] => True | c :: _ => isspace c = false end -> lstrip s = s.
Proof. destruct s as [|c s]; [reflexivity|]. cbn [lstrip]. now intros ->. Qed.

(** A stripped text is an infix of the text and has no blank at either
    end. *)
Lemma strip_infix (t : str) : exists a b, t = a ++ strip t ++ b.
Proof.
  unfold strip. destruct (lstrip_suffix t) as [a Ha].
  destruct (lstrip_suffix (rev (lstrip t))) as [b Hb].
  exists a, (rev b). rewrite Ha at 1. f_equal.
  rewrite <- (rev_involutive (lstrip t)) at 1. rewrite Hb at 1. now rewrite rev_app_distr.
Qed.

Lemma strip_no_blank_ends (t : str) :
  lstrip (strip t) = strip t /\ lstrip (rev (strip t)) = rev (strip t).
Proof.
  unfold strip. split.
  - apply lstrip_fixed.
    destruct (lstrip_suffix (rev (lstrip t))) as [b Hb].
    assert (E : lstrip t = rev (lstrip (rev (lstrip t))) ++ rev b).
    { rewrite <- (rev_involutive (lstrip t)) at 1. rewrite Hb at 1.
      now rewrite rev_app_distr. }
    destruct (rev (lstrip (rev (lstrip t)))) as [|c x]; [exact I|].
    cbn [app] in E. exact (lstrip_head _ _ _ E).
  - rewrite rev_involutive. apply lstrip_fixed.
    destruct (lstrip (rev (lstrip t))) as [|c x] eqn:E; [exact I|].
    exact (lstrip_head _ _ _ E).
Qed.

Lemma contains_skipn (sep r : str) (n : nat) :
  contains sep (skipn n r) = true -> contains sep r = true.
Proof.
  rewrite !contains_iff. intros (pre & post & H).
  exists (firstn n r ++ pre), post.
  rewrite <- (firstn_skipn n r) at 1. now rewrite H, <- app_assoc.
Qed.

Lemma after_last_none (sep s : str) :
  sep <> [] -> after_last sep s = None -> contains sep s = false.
Proof.
  intros N. induction s as [|c s IH].
  - intros _. destruct sep; [now contradiction N | reflexivity].
  - cbn [after_last contains].
    destruct (after_last sep s); [discriminate|].
    destruct (startswith sep (c :: s)); [discriminate|].
    intros _. now apply IH.
Qed.

Lemma after_last_is_last (sep s t : str) :
  sep <> [] -> after_last sep s = Some t -> contains sep t = false.
Proof.
  intros N. induction s as [|c s IH]; [discriminate|].
  cbn [after_last].
  destruct (after_last sep s) as [u|] eqn:A.
  - intros H. injection H as <-. now apply IH.
  - destruct (startswith sep (c :: s)); [|discriminate].
    intros H. injection H as <-.
    destruct sep as [|d sep]; [now contradiction N|].
    cbn [List.length skipn].
    destruct (contains (d :: sep) (skipn (List.length sep) s)) eqn:C; [|reflexivity].
    apply contains_skipn in C.
    now rewrite (after_last_none (d :: sep) s N A) in C.
Qed.

Lemma after_last_some (sep s : str) :
  contains sep s = true -> s <> [] -> exists t, after_last sep s = Some t.
Proof.
  induction s as [|c s IH]; [intros _ N; now contradiction N|].
  intros C _. cbn [after_last].
  destruct (after_last sep s) as [u|] eqn:A; [now exists u|].
  cbn [contains] in C. apply orb_true_iff in C as [C | C].
  - rewrite C. eauto.
  - destruct s as [|d s].
    + cbn in C. rewrite orb_false_r in C.
      destruct sep; [|discriminate]. cbn. eauto.
    + destruct (IH C) as [t Ht]; [discriminate | congruence].
Qed.

Lemma after_last_split (sep s t : str) :
  after_last sep s = Some t -> exists before, s = before ++ sep ++ t.
Proof.
  induction s as [|c s IH]; [discriminate|].
  cbn [after_last].
  destruct (after_last sep s) as [u|] eqn:A.
  - intros H. injection H as <-. destruct (IH eq_refl) as [before ->].
    now exists (c :: before).
  - destruct (startswith sep (c :: s)) eqn:P; [|discriminate].
    intros H. injection H as <-. exists [].
    apply startswith_iff in P as [post P]. rewrite P. now rewrite skipn_own_length.
Qed.

(** When the decoded text holds the marker "Output:", the local answer
    is what follows its last occurrence, stripped: it holds no marker
    and no blank at either end.  A text without the marker is returned
    as it is. *)
Theorem local_answer_drops_the_prompt_scaffold :
  forall response : str,
    (contains (lit "Output:") response = true ->
     exists before after,
       response = before ++ lit "Output:" ++ after
       /\ contains (lit "Output:") after = false
       /\ clean_response response = strip after
       /\ contains (lit "Output:") (clean_response response) = false
       /\ lstrip (clean_response response) = clean_response response
       /\ lstrip (rev (clean_response response)) = rev (clean_response response))
    /\ (contains (lit "Output:") response = false ->
        clean_response response = response).
Proof.
  intros response. unfold clean_response. split.
  - intros C. rewrite C.
    assert (N : response <> []) by (intros ->; discriminate).
    destruct (after_last_some _ _ C N) as [t A]. rewrite A.
    destruct (after_last_split _ _ _ A) as [before B].
    assert (L : contains (lit "Output:") t = false)
      by (apply (after_last_is_last (lit "Output:") response t); [discriminate | exact A]).
    exists before, t. split; [exact B|]. split; [exact L|]. split; [reflexivity|].
    split; [|apply strip_no_blank_ends].
    destruct (contains (lit "Output:") (strip t)) eqn:S; [|reflexivity].
    apply contains_iff in S as (pre & post & S).
    destruct (strip_infix t) as (a & b & T).
    assert (K : contains (lit "Output:") t = true).
    { apply contains_iff. exists (a ++ pre), (post ++ b).
      rewrite T at 1. rewrite S. now rewrite <- !app_assoc. }
    congruence.
  - intros ->. reflexivity.
Qed.


(** ** The impact report *)

Section ReportFacts.
Context {RT : PyRuntime} {FF : FloatFormat}.

Lemma report_guard (s : Stats) :
  get_impact_report s = no_queries <-> total_queries s = 0%Z.
Proof.
  unfold get_impact_report, total_queries.
  destruct (rule_based_responses s + local_responses s + cloud_responses s =? 0)%Z eqn:E.
  - apply Z.eqb_eq in E. tauto.
  - apply Z.eqb_neq in E. split; [|tauto].
    intros H. apply (f_equal (hd 0%N)) in H. cbn [hd app] in H. discriminate.
Qed.

Lemma count_answered_zero (results : list Result) :
  count_answered results = 0%Z <-> Forall (fun r => source r = lit "error") results.
Proof.
  induction results as [|r rs IH].
  - split; [constructor | reflexivity].
  - rewrite count_answered_cons. unfold answered.
    destruct (str_eqb (source r) (lit "error")) eqn:E; cbn [negb].
    + apply str_eqb_eq in E. rewrite Z.add_0_l, IH. split.
      * intros H. now constructor.
      * intros H. now inversion H.
    + split.
      * unfold count_answered. lia.
      * intros H. inversion H as [|? ? S _]. apply str_eqb_eq in S. congruence.
Qed.

(** [get_impact_report] returns "No queries processed yet." exactly
    when the three counters add up to zero; from fresh statistics, after
    a session, that is exactly when every request ended with the error
    answer (or none was made).  Otherwise it returns the boxed report,
    computed without a division by zero. *)
Theorem report_is_empty_iff_nothing_was_answered :
  forall (requests : list (Env * str)) (ul lm dev : bool) (s : Stats),
    (get_impact_report s = no_queries <->
       (rule_based_responses s + local_responses s + cloud_responses s = 0)%Z)
    /\ (get_impact_report (stats (self (snd (serve requests (fresh ul lm dev)))))
        = no_queries <->
        Forall (fun r => source r = lit "error") (fst (serve requests (fresh ul lm dev)))).
Proof.
  intros requests ul lm dev s. split; [apply report_guard|].
  rewrite report_guard, serve_total, <- count_answered_zero. cbn. lia.
Qed.


End ReportFacts.



Section Percentages.
Context {RT : PyRuntime}.


End Percentages.


(** ** The HTTP endpoints *)

Section EndpointFacts.
Context {RT : PyRuntime} {FF : FloatFormat}.
Variable cfg : Config.

Lemma chat_accepts (o : LoadOutcome) (env : Env) (prompt : str) (i : option World) :
  truthy prompt = true ->
  chat cfg o env (Object (Some (PromptText prompt))) i
  = (Chat200 (fst (answer_question env prompt (ensure_instance cfg o i))),
     Some (snd (answer_question env prompt (ensure_instance cfg o i)))).
Proof.
  intros T. unfold chat. rewrite T. cbn [negb].
  now destruct (answer_question env prompt (ensure_instance cfg o i)).
Qed.

Lemma chat_rejects (o : LoadOutcome) (env : Env) (body : ChatBody) (i : option World) :
  accepted_prompt (PostChat o env body) = None ->
  snd (chat cfg o env body i) = Some (ensure_instance cfg o i)
  /\ (fst (chat cfg o env body i) = Chat400 (lit "No prompt provided")
      \/ fst (chat cfg o env body i) = Chat500).
Proof.
  unfold accepted_prompt, chat.
  destruct body as [| |[[s| |]|]]; cbn; auto.
  destruct (truthy s); [discriminate|]. cbn. auto.
Qed.


Lemma run_server_instance (requests : list Request) (w : World) :
  snd (run_server cfg requests (Some w)) = Some (snd (serve (accepted requests) w))
  /\ chat_results (fst (run_server cfg requests (Some w)))
     = fst (serve (accepted requests) w).
Proof.
  revert w. induction requests as [|r rest IH]; intros w.
  - split; reflexivity.
  - destruct r as [o env body | o |]; cbn [run_server accepted].
    + destruct (accepted_prompt (PostChat o env body)) as [[env' s]|] eqn:A.
      * unfold accepted_prompt in A.
        destruct body as [| |[[p| |]|]]; try discriminate.
        destruct (truthy p) eqn:T; [|discriminate]. injection A as <- <-.
        rewrite (chat_accepts o env p (Some w) T). cbn [ensure_instance].
        destruct (IH (snd (answer_question env p w))) as (I1 & I2).
        destruct (run_server cfg rest (Some (snd (answer_question env p w)))) as [rs i'].
        cbn [fst snd chat_results] in *. rewrite serve_cons. cbn [fst snd].
        split; [exact I1 | now rewrite I2].
      * destruct (chat_rejects o env body (Some w) A) as (S & F).
        destruct (chat cfg o env body (Some w)) as [resp i1].
        cbn [fst snd ensure_instance] in S, F. subst i1.
        destruct (IH w) as (I1 & I2).
        destruct (run_server cfg rest (Some w)) as [rs i'].
        cbn [fst snd chat_results] in *.
        split; [exact I1|]. destruct F as [-> | ->]; exact I2.
    + cbn [accepted_prompt stats_endpoint ensure_instance].
      destruct (IH w) as (I1 & I2).
      destruct (run_server cfg rest (Some w)) as [rs i'].
      cbn [fst snd chat_results] in *. now split.
    + cbn [accepted_prompt].
      destruct (IH w) as (I1 & I2).
      destruct (run_server cfg rest (Some w)) as [rs i'].
      cbn [fst snd chat_results] in *. now split.
Qed.

(** On a server whose object exists, as in server mode, a sequence of
    requests leaves the object that [answer_question] leaves when it is
    called, in order, on the non-empty text prompts of the chat
    requests, and the 200 responses carry its results: rejected chat
    requests and the stats and health endpoints change nothing. *)
Theorem server_is_a_session_of_the_accepted_prompts :
  forall (o : LoadOutcome) (requests : list Request),
    snd (server_main cfg o requests)
    = Some (snd (serve (accepted requests) (construct cfg o true false)))
    /\ chat_results (fst (server_main cfg o requests))
       = fst (serve (accepted requests) (construct cfg o true false))
    /\ (forall w : World,
          snd (run_server cfg requests (Some w))
          = Some (snd (serve (accepted requests) w))
          /\ chat_results (fst (run_server cfg requests (Some w)))
             = fst (serve (accepted requests) w)).
Proof.
  intros o requests. unfold server_main.
  destruct (run_server_instance requests (construct cfg o true false)) as (A & B).
  split; [exact A|]. split; [exact B|]. intros w. apply run_server_instance.
Qed.

End EndpointFacts.

(** In server mode [health] reports [model_loaded] as soon as the global
    object exists and its mode from the configuration alone: when the
    model failed to load, the object serves every request from the cloud
    ([use_local] is off for good) while [health] still answers
    [model_loaded = True], and mode local+cloud under the shipped
    configuration. *)
Theorem health_does_not_see_a_failed_load :
  forall (RT : PyRuntime) (FF : FloatFormat) (argv : list str) (o : LoadOutcome)
         (requests : list Request),
    o <> Loaded ->
    model_loaded (health (shipped_config argv)
                    (snd (server_main (shipped_config argv) o requests))) = true
    /\ mode (health (shipped_config argv)
               (snd (server_main (shipped_config argv) o requests))) = lit "local+cloud"
    /\ exists w : World,
         snd (server_main (shipped_config argv) o requests) = Some w
         /\ use_local (self w) = false
         /\ forallb is_cloud_call (trace w) = true.
Proof.
  intros RT FF argv o requests N. unfold server_main.
  destruct (run_server_instance (shipped_config argv) requests
              (construct (shipped_config argv) o true false)) as (A & _).
  rewrite A. cbn [health model_loaded mode shipped_config ENABLE_LOCAL_IN_SERVER].
  split; [reflexivity|]. split; [reflexivity|].
  eexists. split; [reflexivity|].
  assert (U : use_local (self (construct (shipped_config argv) o true false)) = false).
  { cbn [construct self]. rewrite init_use_local.
    destruct o; try (now rewrite andb_false_r). now contradiction N. }
  split.
  - destruct (serve_flags (accepted requests)
                (construct (shipped_config argv) o true false)) as (-> & _). exact U.
  - apply cloud_only_session; [exact U | reflexivity].
Qed.


(** ** The interactive loop *)

Section LoopFacts.
Context {RT : PyRuntime} {FF : FloatFormat}.

Lemma repl_world (inputs : list Input) (w : World) :
  snd (repl inputs w) = snd (serve (asked inputs) w).
Proof.
  unfold asked. revert w. induction inputs as [|i rest IH]; intros w.
  - reflexivity.
  - destruct i as [line env| |]; cbn [repl before_stop stops].
    + unfold is_command at 1.
      destruct (str_eqb (lower (strip line)) (lit "quit")); [reflexivity|].
      cbn [questions question]. unfold is_command.
      destruct (str_eqb (lower (strip line)) (lit "stats")); cbn [orb].
      * specialize (IH w). now destruct (repl rest w).
      * destruct (truthy (strip line)); cbn [negb]; [|apply IH].
        rewrite serve_cons. cbn [snd].
        specialize (IH (snd (answer_question env (strip line) w))).
        destruct (answer_question env (strip line) w) as [r w1]. cbn [snd] in *.
        now destruct (repl rest w1).
    + reflexivity.
    + cbn [questions question]. specialize (IH w). now destruct (repl rest w).
Qed.

Lemma repl_stops (before : list Input) (i : Input) (after : list Input) (w : World) :
  stops i = true -> repl (before ++ i :: after) w = repl (before ++ [i]) w.
Proof.
  intros S. revert w. induction before as [|j before IH]; intros w.
  - cbn [app]. destruct i as [line env| |]; cbn [repl stops] in *.
    + unfold is_command in S. now rewrite S.
    + reflexivity.
    + discriminate.
  - cbn [app]. destruct j as [line env| |]; cbn [repl].
    + destruct (str_eqb (lower (strip line)) (lit "quit")); [reflexivity|].
      destruct (str_eqb (lower (strip line)) (lit "stats")); [now rewrite IH|].
      destruct (negb (truthy (strip line))); [apply IH|].
      destruct (answer_question env (strip line) w) as [r w1]. now rewrite IH.
    + reflexivity.
    + now rewrite IH.
Qed.

(** The interactive loop leaves the object that [answer_question]
    leaves when it is called, in order, on the lines typed before the
    first quit or Ctrl-C that, stripped, are neither empty nor the
    command stats: commands, blank lines and the end of the input never
    reach it.  Whatever follows the first quit or Ctrl-C is not read. *)
Theorem loop_is_a_session_of_the_questions_asked :
  forall (cfg : Config) (o : LoadOutcome) (inputs : list Input),
    snd (cli_main cfg o inputs)
    = snd (serve (asked inputs) (construct cfg o true false))
    /\ (forall w : World, snd (repl inputs w) = snd (serve (asked inputs) w))
    /\ (forall (before after : list Input) (i : Input) (w : World),
          stops i = true ->
          repl (before ++ i :: after) w = repl (before ++ [i]) w).
Proof.
  intros cfg o inputs. split; [apply repl_world|]. split.
  - intros w. apply repl_world.
  - intros before after i w S. now apply repl_stops.
Qed.

Lemma tokens_only_from_cloud (env : Env) (prompt : str) (w : World) :
  (0 < tokens (fst (answer_question env prompt w)))%Z ->
  source (fst (answer_question env prompt w)) = lit "cloud".
Proof.
  destruct (answer_question_cases env prompt w)
    as [(r & _ & E) | [(a & _ & _ & _ & _ & E) | [(a & _ & _ & _ & E) | (_ & _ & E)]]];
    rewrite E; cbn [fst tokens source cloud_result error_result]; try lia. reflexivity.
Qed.

(** After an answer the loop prints the CO2 line exactly when the
    result carries a positive token count, and such a result is a cloud
    answer: rule, local and error answers are printed without it. *)
Theorem footprint_line_is_printed_for_billed_answers_only :
  forall (env : Env) (prompt : str) (w : World),
    ((0 < tokens (fst (answer_question env prompt w)))%Z ->
     source (fst (answer_question env prompt w)) = lit "cloud"
     /\ print_result (fst (answer_question env prompt w))
        = [10%N :: answer (fst (answer_question env prompt w));
           [0x1F4A8; 32]%N
             ++ format_fixed 4 (co2 (fst (answer_question env prompt w)))
             ++ lit "g CO" ++ [0x2082%N] ++ lit " | "
             ++ show_Z (tokens (fst (answer_question env prompt w))) ++ lit " tokens";
           []])
    /\ ((tokens (fst (answer_question env prompt w)) <= 0)%Z ->
        print_result (fst (answer_question env prompt w))
        = [10%N :: answer (fst (answer_question env prompt w)); []]).
Proof.
  intros env prompt w. unfold print_result. rewrite footprint_test. split.
  - intros T. split; [now apply tokens_only_from_cloud|].
    apply Z.ltb_lt in T. now rewrite T.
  - intros T. apply Z.ltb_ge in T. now rewrite T.
Qed.

End LoopFacts.


(** ** The reasoning tokens over a session *)

Section ReasoningFacts.
Context {RT : PyRuntime}.

Lemma answer_question_reasoning (env : Env) (prompt : str) (w : World) :
  reasoning_tokens_used (stats (self (snd (answer_question env prompt w))))
  = (reasoning_tokens_used (stats (self w))
     + reasoning_spent env (fst (answer_question env prompt w)))%Z.
Proof.
  unfold reasoning_spent.
  destruct (answer_question_cases env prompt w)
    as [(r & _ & E) | [(a & _ & _ & _ & _ & E) | [(a & _ & _ & _ & E) | (_ & _ & E)]]];
    rewrite E;
    cbn [fst snd with_stats with_call self stats source cloud_result error_result];
    stats_fields; change (str_eqb (lit "rule-based") (lit "rule-based")) with true;
    change (str_eqb (lit "local") (lit "rule-based")) with false;
    change (str_eqb (lit "local") (lit "local")) with true;
    change (str_eqb (lit "cloud") (lit "rule-based")) with false;
    change (str_eqb (lit "cloud") (lit "local")) with false;
    change (str_eqb (lit "error") (lit "rule-based")) with false;
    change (str_eqb (lit "error") (lit "local")) with false;
    cbn [orb]; lia.
Qed.

Lemma serve_length (requests : list (Env * str)) (w : World) :
  List.length (fst (serve requests w)) = List.length requests.
Proof.
  revert w. induction requests as [|[env prompt] rest IH]; intros w.
  - reflexivity.
  - rewrite serve_cons. cbn [fst List.length]. now rewrite IH.
Qed.

Lemma serve_reasoning (requests : list (Env * str)) (w : World) :
  reasoning_tokens_used (stats (self (snd (serve requests w))))
  = (reasoning_tokens_used (stats (self w))
     + sum_reasoning requests (fst (serve requests w)))%Z.
Proof.
  revert w. induction requests as [|[env prompt] rest IH]; intros w.
  - cbn. lia.
  - rewrite serve_cons. cbn [fst snd sum_reasoning].
    rewrite IH, answer_question_reasoning. lia.
Qed.

(** A session returns one result per request, and from fresh statistics
    [reasoning_tokens_used] is the sum, over the requests that reached
    the cloud (those whose result has source cloud or error), of the
    reasoning tokens their reply reported. *)
Theorem reasoning_tokens_are_those_of_the_cloud_replies :
  forall (requests : list (Env * str)) (ul lm dev : bool),
    List.length (fst (serve requests (fresh ul lm dev))) = List.length requests
    /\ reasoning_tokens_used (stats (self (snd (serve requests (fresh ul lm dev)))))
       = sum_reasoning requests (fst (serve requests (fresh ul lm dev))).
Proof.
  intros requests ul lm dev. split; [apply serve_length|].
  rewrite serve_reasoning. cbn. lia.
Qed.

End ReasoningFacts.


(** ** Letter case *)

Lemma ascii_lower_idem (c : char) : ascii_lower (ascii_lower c) = ascii_lower c.
Proof.
  unfold ascii_lower.
  destruct ((65 <=? c) && (c <=? 90))%N eqn:U; [|now rewrite U].
  apply andb_true_iff in U as [A B]. apply N.leb_le in A, B.
  destruct ((65 <=? c + 32) && (c + 32 <=? 90))%N eqn:V; [|reflexivity].
  apply andb_true_iff in V as [_ V]. apply N.leb_le in V. lia.
Qed.

Lemma ascii_lower_ascii (c : char) : is_ascii c = true -> is_ascii (ascii_lower c) = true.
Proof.
  unfold is_ascii, ascii_lower. intros H. apply N.ltb_lt in H.
  destruct ((65 <=? c) && (c <=? 90))%N eqn:U; apply N.ltb_lt; [|exact H].
  apply andb_true_iff in U as [_ B]. apply N.leb_le in B. lia.
Qed.

Lemma letters_are_not_blank (x : char) : (33 <= x <= 132)%N -> isspace x = false.
Proof.
  intros H. unfold isspace.
  replace (x <=? 13)%N with false by (symmetry; apply N.leb_gt; lia).
  replace (x <=? 32)%N with false by (symmetry; apply N.leb_gt; lia).
  replace (8192 <=? x)%N with false by (symmetry; apply N.leb_gt; lia).
  replace (x =? 133)%N with false by (symmetry; apply N.eqb_neq; lia).
  replace (x =? 160)%N with false by (symmetry; apply N.eqb_neq; lia).
  replace (x =? 5760)%N with false by (symmetry; apply N.eqb_neq; lia).
  replace (x =? 8232)%N with false by (symmetry; apply N.eqb_neq; lia).
  replace (x =? 8233)%N with false by (symmetry; apply N.eqb_neq; lia).
  replace (x =? 8239)%N with false by (symmetry; apply N.eqb_neq; lia).
  replace (x =? 8287)%N with false by (symmetry; apply N.eqb_neq; lia).
  replace (x =? 12288)%N with false by (symmetry; apply N.eqb_neq; lia).
  now rewrite !andb_false_r.
Qed.

Lemma ascii_lower_space (c : char) : isspace (ascii_lower c) = isspace c.
Proof.
  unfold ascii_lower.
  destruct ((65 <=? c) && (c <=? 90))%N eqn:U; [|reflexivity].
  apply andb_true_iff in U as [A B]. apply N.leb_le in A, B.
  rewrite !letters_are_not_blank by lia. reflexivity.
Qed.

Lemma ascii_lower_keeps_operators (k c : char) :
  In k [43; 45; 42; 47]%N -> (k =? ascii_lower c)%N = (k =? c)%N.
Proof.
  intros K. unfold ascii_lower.
  destruct ((65 <=? c) && (c <=? 90))%N eqn:U; [|reflexivity].
  apply andb_true_iff in U as [A B]. apply N.leb_le in A, B.
  destruct (N.eqb_spec k (c + 32)), (N.eqb_spec k c); try reflexivity;
    cbn in K; lia.
Qed.

Lemma contains_single (k : char) (s : str) : contains [k] s = existsb (N.eqb k) s.
Proof.
  induction s as [|c s IH]; [reflexivity|].
  cbn [contains startswith existsb]. now rewrite IH, andb_true_r.
Qed.

Lemma split_from_lower (cur s : str) :
  split_from (map ascii_lower cur) (map ascii_lower s)
  = map (map ascii_lower) (split_from cur s).
Proof.
  revert cur. induction s as [|c s IH]; intros cur; cbn [map split_from].
  - destruct cur as [|d cur]; [reflexivity|]. cbn [map].
    now rewrite (map_rev ascii_lower (d :: cur)).
  - rewrite ascii_lower_space. destruct (isspace c).
    + destruct cur as [|d cur]; cbn [map].
      * apply (IH []).
      * rewrite (map_rev ascii_lower (d :: cur)). f_equal. apply (IH []).
    + apply (IH (c :: cur)).
Qed.

Section CaseFacts.
Context {RT : PyRuntime}.

Lemma lower_from_ascii (whole s : str) (i : nat) :
  forallb is_ascii s = true -> lower_from whole i s = map ascii_lower s.
Proof.
  revert i. induction s as [|c s IH]; intros i H; [reflexivity|].
  cbn [forallb] in H. apply andb_true_iff in H as [A B].
  cbn [lower_from map]. rewrite A. cbn [app]. now rewrite IH.
Qed.

Lemma lower_ascii (s : str) :
  forallb is_ascii s = true -> lower s = map ascii_lower s.
Proof. apply lower_from_ascii. Qed.

Lemma lower_idem (s : str) :
  forallb is_ascii s = true -> lower (lower s) = lower s.
Proof.
  intros H. rewrite (lower_ascii s H). rewrite lower_ascii.
  - rewrite map_map. apply map_ext. apply ascii_lower_idem.
  - rewrite forallb_forall in *. intros c C.
    apply in_map_iff in C as (d & <- & D). apply ascii_lower_ascii. now apply H.
Qed.

Lemma operators_lower (s : str) :
  existsb (fun op => contains op (map ascii_lower s)) operators
  = existsb (fun op => contains op s) operators.
Proof.
  assert (E : forall k, In k [43; 45; 42; 47]%N ->
                        contains [k] (map ascii_lower s) = contains [k] s).
  { intros k K. rewrite !contains_single. induction s as [|c s IH]; [reflexivity|].
    cbn [map existsb]. now rewrite IH, ascii_lower_keeps_operators. }
  unfold operators. cbn [existsb lit map list_ascii_of_string N_of_ascii].
  change (N_of_ascii "+") with 43%N. change (N_of_ascii "-") with 45%N.
  change (N_of_ascii "*") with 42%N. change (N_of_ascii "/") with 47%N.
  rewrite !E; cbn; auto 10.
Qed.

Lemma operators_in_lower (s : str) :
  forallb is_ascii s = true ->
  existsb (fun op => contains op (lower s)) operators
  = existsb (fun op => contains op s) operators.
Proof. intros A. rewrite (lower_ascii s A). apply operators_lower. Qed.

Lemma word_count_of_lower (s : str) :
  forallb is_ascii s = true ->
  List.length (split (lower s)) = List.length (split s).
Proof.
  intros A. rewrite (lower_ascii s A). unfold split.
  change (@nil char) with (map ascii_lower []) at 1.
  now rewrite split_from_lower, length_map.
Qed.

Lemma routing_of_lower (t : datetime) (prompt : str) :
  forallb is_ascii prompt = true ->
  handle_rule_based t (lower prompt) = handle_rule_based t prompt
  /\ categorize_complexity (lower prompt) = categorize_complexity prompt.
Proof.
  intros A. split.
  - unfold handle_rule_based, arithmetic_rule, arithmetic_body, calc_of.
    rewrite (lower_idem prompt A), (operators_in_lower prompt A). reflexivity.
  - unfold categorize_complexity.
    rewrite (lower_idem prompt A), (word_count_of_lower prompt A). reflexivity.
Qed.

(** On prompts of ASCII characters the rule engine and the classifier
    ignore letter case: two prompts with the same lower-cased form get
    the same rule answer and the same complexity. *)
Theorem routing_ignores_letter_case :
  forall (t : datetime) (p q : str),
    forallb is_ascii p = true ->
    forallb is_ascii q = true ->
    lower p = lower q ->
    handle_rule_based t p = handle_rule_based t q
    /\ categorize_complexity p = categorize_complexity q.
Proof.
  intros t p q P Q E.
  destruct (routing_of_lower t p P) as (<- & <-).
  destruct (routing_of_lower t q Q) as (<- & <-).
  now rewrite E.
Qed.

End CaseFacts.


(* ================================================================== *)
(** * The properties on concrete calls *)

Lemma C1_witness :
  @handle_rule_based ascii_runtime (now quiet_env) (lit "hi") = Some greeting_reply
  /\ (let (res, w') :=
        @answer_question ascii_runtime quiet_env (lit "hi") (fresh true true true) in
      res = {| answer := greeting_reply; source := lit "rule-based";
               tokens := 0; co2 := 0 |}
      /\ trace w' = trace (fresh true true true)
      /\ stats (self w')
         = update_stats (lit "rule-based") 0 (stats (self (fresh true true true)))).
Proof.
  split; [reflexivity|].
  apply (@C1_rule_answer_short_circuits ascii_runtime quiet_env (lit "hi")
           greeting_reply (fresh true true true)).
  reflexivity.
Defined.


Lemma C3_witness :
  contains (lit "design a system") (lit "design a system for X") = true
  /\ @categorize_complexity ascii_runtime (lit "design a system for X") = lit "complex"
  /\ (40 < List.length (split forty_one_words))%nat
  /\ @categorize_complexity ascii_runtime forty_one_words = lit "complex".
Proof.
  split; [reflexivity|]. split.
  - destruct (@C3_classifier ascii_runtime (lit "design a system for X"))
      as (_ & _ & _ & _ & D).
    apply D. reflexivity.
  - split; [vm_compute; lia|].
    destruct (@C3_classifier ascii_runtime forty_one_words) as (_ & _ & _ & W & _).
    apply W. vm_compute. lia.
Defined.

Lemma C7_witness :
  In 120%N (@calc_of ascii_runtime (lit "what is x+1"))
  /\ char_in 120%N allowed_chars = false
  /\ @arithmetic_rule ascii_runtime (lit "what is x+1") = None
  /\ @arithmetic_body ascii_runtime (lit "1/0") = Raised
  /\ @handle_rule_based ascii_runtime half_past_nine (lit "1/0") = None.
Proof.
  destruct (@C7_arithmetic_rule ascii_runtime half_past_nine) as (_ & _ & _ & D & R).
  assert (I : In 120%N (@calc_of ascii_runtime (lit "what is x+1")))
    by (left; reflexivity).
  split; [exact I|]. split; [reflexivity|]. split.
  - exact (D (lit "what is x+1") 120%N I eq_refl).
  - split; [reflexivity|].
    exact (proj2 (R (lit "1/0") eq_refl) eq_refl eq_refl eq_refl).
Defined.

Lemma C8_witness :
  hour half_past_nine = hour {| year := 1999; month := 1; day := 2; hour := 9; minute := 30 |}
  /\ @is_time_query (@strip (@lower ascii_runtime (lit "what time is it"))) = true
  /\ @handle_rule_based ascii_runtime half_past_nine (lit "what time is it")
     = @handle_rule_based ascii_runtime
         {| year := 1999; month := 1; day := 2; hour := 9; minute := 30 |}
         (lit "what time is it")
  /\ @handle_rule_based ascii_runtime half_past_nine (lit "what is python")
     = @handle_rule_based ascii_runtime quarter_to_ten_pm (lit "what is python").
Proof.
  split; [reflexivity|]. split; [reflexivity|]. split.
  - destruct (@C8_rule_engine_depends_on_clock_only_for_time_and_date ascii_runtime
                half_past_nine
                {| year := 1999; month := 1; day := 2; hour := 9; minute := 30 |}
                (lit "what time is it")) as (_ & T & _).
    apply T; reflexivity.
  - destruct (@C8_rule_engine_depends_on_clock_only_for_time_and_date ascii_runtime
                half_past_nine quarter_to_ten_pm (lit "what is python")) as (N & _ & _).
    apply N. right. split; reflexivity.
Defined.

(** The rule engine declines, the local model raises, the cloud sends an
    empty message after 5 reasoning tokens: [answer_question] returns the
    error answer, and the statistics are no longer those before the
    call. *)
Lemma C4_error_path_changes_stats :
  @handle_rule_based ascii_runtime (now silent_env) (lit "what is python") = None
  /\ local_reply silent_env (self (fresh true true true)) = None
  /\ fst (cloud_inference silent_env (lit "what is python") 150 (fresh true true true))
     = (Some [], 150%Z)
  /\ fst (@answer_question ascii_runtime silent_env (lit "what is python")
            (fresh true true true))
     = {| answer := apology; source := lit "error"; tokens := 0; co2 := 0 |}
  /\ stats (self (snd (@answer_question ascii_runtime silent_env (lit "what is python")
                         (fresh true true true))))
     <> stats (self (fresh true true true)).
Proof.
  split; [reflexivity|]. split; [reflexivity|]. split; [reflexivity|].
  split; [reflexivity|].
  vm_compute. discriminate.
Qed.

Lemma C4_witness :
  @handle_rule_based ascii_runtime (now silent_env) (lit "what is python") = None
  /\ truthy_opt (local_reply silent_env (self (fresh true true true))) = false
  /\ truthy_opt (cloud_answer silent_env) = false
  /\ (let (res, w') :=
        @answer_question ascii_runtime silent_env (lit "what is python")
          (fresh true true true) in
      res = {| answer := apology; source := lit "error"; tokens := 0; co2 := 0 |}
      /\ stats (self w') =
           {| rule_based_responses := rule_based_responses (stats (self (fresh true true true)));
              local_responses := local_responses (stats (self (fresh true true true)));
              cloud_responses := cloud_responses (stats (self (fresh true true true)));
              tokens_saved := tokens_saved (stats (self (fresh true true true)));
              co2_saved_grams := co2_saved_grams (stats (self (fresh true true true)));
              water_saved_ml := water_saved_ml (stats (self (fresh true true true)));
              total_tokens_used := total_tokens_used (stats (self (fresh true true true)));
              reasoning_tokens_used :=
                reasoning_tokens_used (stats (self (fresh true true true)))
                + accrued_reasoning silent_env |}
      /\ (cloud_answer silent_env = None \/ reported_reasoning silent_env = None ->
          stats (self w') = stats (self (fresh true true true)))).
Proof.
  split; [reflexivity|]. split; [reflexivity|]. split; [reflexivity|].
  apply (@C4_error_path_touches_only_reasoning_tokens ascii_runtime silent_env
           (lit "what is python") (fresh true true true)); reflexivity.
Defined.


(** The cloud reply parses, its usage has no [total_tokens], and its
    message is blank: [cloud_inference] reports the budget of 150, yet
    the result of [answer_question] carries 0 tokens and
    [total_tokens_used] has not grown by 150. *)
Lemma C10_blank_answer_carries_no_budget :
  cloud_answer blank_env = Some []
  /\ reported_total blank_env = None
  /\ fst (cloud_inference blank_env (lit "what is python") 150 (fresh false false false))
     = (Some [], 150%Z)
  /\ tokens (fst (@answer_question ascii_runtime blank_env (lit "what is python")
                    (fresh false false false))) <> 150%Z
  /\ total_tokens_used
       (stats (self (snd (@answer_question ascii_runtime blank_env (lit "what is python")
                            (fresh false false false)))))
     <> (total_tokens_used (stats (self (fresh false false false))) + 150)%Z.
Proof.
  split; [reflexivity|]. split; [reflexivity|]. split; [reflexivity|].
  split; vm_compute; discriminate.
Qed.

Lemma C10_witness :
  cloud_answer unmetered_env = Some (lit "A snake.")
  /\ reported_total unmetered_env = None
  /\ fst (cloud_inference unmetered_env (lit "what is python") 150 (fresh false false false))
     = (Some (lit "A snake."), 150%Z)
  /\ tokens (fst (@answer_question ascii_runtime unmetered_env (lit "what is python")
                    (fresh false false false))) = 150%Z.
Proof.
  destruct (@C10_missing_total_defaults_to_budget ascii_runtime unmetered_env
              (lit "what is python") (fresh false false false) (lit "A snake.")
              eq_refl eq_refl) as (I & _).
  split; [reflexivity|]. split; [reflexivity|]. split; [exact (I 150%Z)|].
  reflexivity.
Defined.

Lemma complex_prompt_witness :
  @handle_rule_based ascii_runtime (now eighty_env) (lit "design a system for X") = None
  /\ @categorize_complexity ascii_runtime (lit "design a system for X") = lit "complex"
  /\ trace (snd (@answer_question ascii_runtime eighty_env (lit "design a system for X")
                   (fresh true true true)))
     = trace (fresh true true true) ++ [CloudCall (lit "design a system for X") 150].
Proof.
  split; [reflexivity|]. split; [reflexivity|].
  apply (@complex_or_disabled_goes_straight_to_cloud ascii_runtime eighty_env
           (lit "design a system for X") (fresh true true true) eq_refl).
  left. reflexivity.
Defined.

Lemma local_answer_witness :
  local_reply local_env (self (fresh true true true)) = Some (lit "ok")
  /\ fst (@answer_question ascii_runtime local_env (lit "what is python")
            (fresh true true true))
     = {| answer := local_tag ++ lit "ok"; source := lit "local"; tokens := 0; co2 := 0 |}.
Proof.
  split; [reflexivity|].
  rewrite (@local_answer_stops_the_chain ascii_runtime local_env (lit "what is python")
             (lit "ok") (fresh true true true) eq_refl eq_refl eq_refl eq_refl eq_refl).
  reflexivity.
Defined.


Lemma unread_reply_witness :
  cloud_answer headless_env = None
  /\ reported_reasoning headless_env = Some 7%Z
  /\ self (snd (cloud_inference headless_env (lit "what is python") 150
                  (fresh true true true)))
     = self (fresh true true true).
Proof.
  split; [reflexivity|]. split; [reflexivity|].
  apply (unread_reply_adds_nothing headless_env (lit "what is python") 150
           (fresh true true true) eq_refl).
Defined.

(** *** The further properties on concrete inputs *)

Lemma construction_witness :
  use_local (__init__ server_config Loaded true false) = true
  /\ local_model (__init__ server_config Loaded true false) = true
  /\ use_local (__init__ server_config TestFails true false) = false
  /\ use_local (__init__ server_config Loaded true true) = false.
Proof.
  destruct (local_tier_is_on_iff_the_model_loaded server_config Loaded true false)
    as (_ & L & _).
  split; [reflexivity|]. split; [apply L; reflexivity|]. split; reflexivity.
Defined.

Lemma cloud_only_witness :
  TestFails <> Loaded
  /\ forallb is_cloud_call
       (trace (snd (@serve ascii_runtime sample_session
                      (construct server_config TestFails true false)))) = true.
Proof.
  split; [discriminate|].
  apply (@cloud_only_objects_never_call_the_local_model ascii_runtime server_config
           TestFails true false sample_session).
  right; right. discriminate.
Defined.

Lemma retry_witness :
  use_local (self (fresh true true true)) = true
  /\ exists rest,
       @calls_of ascii_runtime local_env (lit "what is python")
         (snd (@serve ascii_runtime [(quiet_env, lit "what is python")]
                 (fresh true true true)))
       = LocalCall (lit "what is python") 100 :: rest.
Proof.
  split; [reflexivity|].
  destruct (@local_tier_is_never_switched_off ascii_runtime
              [(quiet_env, lit "what is python")] local_env (lit "what is python")
              (fresh true true true)) as (_ & R).
  apply R; reflexivity.
Defined.

Lemma well_formed_witness :
  source (fst (@answer_question ascii_runtime quiet_env (lit "what is python")
                 (fresh true true true))) <> lit "cloud"
  /\ tokens (fst (@answer_question ascii_runtime quiet_env (lit "what is python")
                    (fresh true true true))) = 0%Z.
Proof.
  assert (N : source (fst (@answer_question ascii_runtime quiet_env (lit "what is python")
                             (fresh true true true))) <> lit "cloud")
    by (vm_compute; discriminate).
  split; [exact N|].
  destruct (@every_result_is_well_formed ascii_runtime quiet_env (lit "what is python")
              (fresh true true true)) as (_ & _ & Z).
  exact (proj1 (Z N)).
Defined.

Lemma telltale_witness :
  (forall e : str,
      truthy e = true ->
      forallb (fun c => char_in c allowed_chars) e = true ->
      telltale_eval e = @builtin_eval ascii_runtime e)
  /\ @handle_rule_based
       {| unicode_lower := @unicode_lower ascii_runtime; builtin_eval := telltale_eval |}
       half_past_nine (lit "what is x+1")
     = @handle_rule_based ascii_runtime half_past_nine (lit "what is x+1").
Proof.
  assert (H : forall e : str,
             truthy e = true ->
             forallb (fun c => char_in c allowed_chars) e = true ->
             telltale_eval e = @builtin_eval ascii_runtime e)
    by (intros e _ A; unfold telltale_eval; now rewrite A).
  split; [exact H|].
  exact (eval_sees_only_arithmetic_text ascii_runtime telltale_eval half_past_nine
           (lit "what is x+1") H).
Defined.

Lemma scaffold_witness :
  contains (lit "Output:") (lit "Instruct: hi Output: a Output:  b ") = true
  /\ clean_response (lit "Instruct: hi Output: a Output:  b ") = lit "b".
Proof.
  split; [reflexivity|].
  destruct (local_answer_drops_the_prompt_scaffold
              (lit "Instruct: hi Output: a Output:  b ")) as (C & _).
  destruct (C eq_refl) as (before & after & _). reflexivity.
Defined.

Lemma report_witness :
  @get_impact_report mute_format
    (stats (self (snd (@serve ascii_runtime [(silent_env, lit "what is python")]
                         (fresh true true true))))) = no_queries
  /\ Forall (fun r => source r = lit "error")
       (fst (@serve ascii_runtime [(silent_env, lit "what is python")]
               (fresh true true true))).
Proof.
  destruct (@report_is_empty_iff_nothing_was_answered ascii_runtime mute_format
              [(silent_env, lit "what is python")] true true true fresh_stats)
    as (_ & R).
  split; [reflexivity|]. apply R. reflexivity.
Defined.



Lemma server_witness :
  accepted sample_requests
  = [(quiet_env, lit "hi"); (eighty_env, lit "design a system for X")]
  /\ snd (@server_main ascii_runtime mute_format server_config Loaded sample_requests)
     = Some (snd (@serve ascii_runtime (accepted sample_requests)
                    (construct server_config Loaded true false))).
Proof.
  split; [reflexivity|].
  exact (proj1 (@server_is_a_session_of_the_accepted_prompts ascii_runtime mute_format
                  server_config Loaded sample_requests)).
Defined.

Lemma health_witness :
  WeightsFail <> Loaded
  /\ model_loaded (health (shipped_config [lit "local.py"; lit "server"])
                     (snd (@server_main ascii_runtime mute_format
                             (shipped_config [lit "local.py"; lit "server"])
                             WeightsFail sample_requests))) = true.
Proof.
  split; [discriminate|].
  apply (health_does_not_see_a_failed_load ascii_runtime mute_format
           [lit "local.py"; lit "server"] WeightsFail sample_requests).
  discriminate.
Defined.

Lemma loop_witness :
  @asked ascii_runtime sample_inputs
  = [(quiet_env, lit "hi"); (eighty_env, lit "design a system for X")]
  /\ snd (@cli_main ascii_runtime mute_format server_config Loaded sample_inputs)
     = snd (@serve ascii_runtime (@asked ascii_runtime sample_inputs)
              (construct server_config Loaded true false)).
Proof.
  split; [reflexivity|].
  exact (proj1 (@loop_is_a_session_of_the_questions_asked ascii_runtime mute_format
                  server_config Loaded sample_inputs)).
Defined.

Lemma footprint_witness :
  (0 < tokens (fst (@answer_question ascii_runtime eighty_env
                      (lit "design a system for X") (fresh false false false))))%Z
  /\ List.length
       (@print_result mute_format
          (fst (@answer_question ascii_runtime eighty_env
                  (lit "design a system for X") (fresh false false false)))) = 3%nat
  /\ List.length
       (@print_result mute_format
          (fst (@answer_question ascii_runtime quiet_env (lit "hi")
                  (fresh false false false)))) = 2%nat.
Proof.
  assert (P : (0 < tokens (fst (@answer_question ascii_runtime eighty_env
                                  (lit "design a system for X")
                                  (fresh false false false))))%Z)
    by (vm_compute; reflexivity).
  split; [exact P|]. split.
  - destruct (@footprint_line_is_printed_for_billed_answers_only ascii_runtime mute_format
                eighty_env (lit "design a system for X") (fresh false false false))
      as (F & _).
    destruct (F P) as (_ & ->). reflexivity.
  - reflexivity.
Defined.

Lemma letter_case_witness :
  @lower ascii_runtime (lit "What TIME is it") = @lower ascii_runtime (lit "what time IS IT")
  /\ @handle_rule_based ascii_runtime half_past_nine (lit "What TIME is it")
     = @handle_rule_based ascii_runtime half_past_nine (lit "what time IS IT").
Proof.
  split; [reflexivity|].
  exact (proj1 (@routing_ignores_letter_case ascii_runtime half_past_nine
                  (lit "What TIME is it") (lit "what time IS IT")
                  eq_refl eq_refl eq_refl)).
Defined.
